(** * tg/utils.py: external file handlers and terminal suspension

    A shallow embedding of [get_file_handler] and of the [suspend] context
    manager of [tg/utils.py], with the properties of the handler resolver
    and of the suspend/resume bracket.

    Python values are modelled as follows: [str] as [string], [Optional[str]]
    as [option string], a call that may raise as a [result].  The curses
    library, the three view panes and the processes launched are the fields
    of a [World] that every stateful operation threads through. *)

From Stdlib Require Import String Ascii List ZArith Bool Lia DecimalString.
Import ListNotations.
Open Scope string_scope.

(** ** Python outcomes *)

Inductive exn : Type :=
| AttributeError
| KeyError
| IndexError
| ValueError
| OSError
| Exception (msg : string).

Inductive result (A : Type) : Type :=
| Returned (a : A)
| Raised (e : exn).
Arguments Returned {A} a.
Arguments Raised {A} e.

(** Truth value of an [Optional[str]]: [None] and the empty string are
    false, as in [if not mtype], [if not handler] and [if not cmd]. *)
Definition truthy (o : option string) : bool :=
  match o with
  | None => false
  | Some EmptyString => false
  | Some (String _ _) => true
  end.

(** ** shlex.quote *)

Definition dquote : ascii := "034"%char.
Definition squote : ascii := "039"%char.

Definition in_range (lo hi : nat) (c : ascii) : bool :=
  (lo <=? nat_of_ascii c)%nat && (nat_of_ascii c <=? hi)%nat.

Fixpoint mem_char (c : ascii) (s : string) : bool :=
  match s with
  | EmptyString => false
  | String d s' => Ascii.eqb c d || mem_char c s'
  end.

(** The characters outside the class [[^\w@%+=:,./-]] (ASCII). *)
Definition safe_char (c : ascii) : bool :=
  in_range 97 122 c || in_range 65 90 c || in_range 48 57 c
  || mem_char c "_@%+=:,./-".

Fixpoint find_unsafe (s : string) : bool :=
  match s with
  | EmptyString => false
  | String c s' => negb (safe_char c) || find_unsafe s'
  end.

(** [s.replace] of every single quote by: single quote, double quote,
    single quote, double quote, single quote. *)
Fixpoint replace_squote (s : string) : string :=
  match s with
  | EmptyString => EmptyString
  | String c s' =>
      if Ascii.eqb c squote
      then String squote (String dquote (String squote (String dquote
             (String squote (replace_squote s')))))
      else String c (replace_squote s')
  end.

Definition shlex_quote (s : string) : string :=
  match s with
  | EmptyString => "''"
  | _ =>
      if find_unsafe s then String squote (replace_squote s ++ "'")
      else s
  end.

(** ** The collaborators outside the module

    [mimetypes], [mailcap], [str.format], [config] and the shell are not
    part of [utils.py]; the resolver and the session are stated over any
    behaviour of theirs. *)

Definition mailcap_entry : Type := list (string * string).

Record Env : Type := {
  (** [mimetypes.guess_type(path)]: media type and encoding. *)
  guess_type : string -> option string * option string;
  (** [mailcap.findmatch(mailcap.getcaps(), mtype, filename=path)]: the
      [test] commands the lookup runs through [os.system], then the command
      and the entry found. *)
  findmatch : string -> string ->
              list string * (option string * option mailcap_entry);
  (** [config.DEFAULT_OPEN], [None] when no template is set. *)
  DEFAULT_OPEN : option string;
  (** [template.format(file_path=value)]. *)
  str_format : string -> string -> result string;
  (** Running [cmd] through the shell with an optional standard-input text:
      the exit status of the shell, or the error of a launch that failed. *)
  run_shell : string -> option string -> result Z
}.

Definition with_DEFAULT_OPEN (t : option string) (env : Env) : Env :=
  {| guess_type := guess_type env;
     findmatch := findmatch env;
     DEFAULT_OPEN := t;
     str_format := str_format env;
     run_shell := run_shell env |}.

(** ** The world: curses, the view and the processes launched *)

Definition window : Type := nat.

Inductive win_method : Type := refresh | noutrefresh.

(** A bound method [w.refresh] or [w.noutrefresh] of a curses window. *)
Record bound_method : Type := {
  m_self : window;
  m_func : win_method
}.

Record pane : Type := {
  win : window;
  _refresh : bound_method
}.

Record screen : Type := {
  scr_win : window;
  keypad_on : bool
}.

Record View : Type := {
  chats : pane;
  msgs : pane;
  status : pane;
  stdscr : screen
}.

Record Curses : Type := {
  echo_on : bool;
  cbreak_on : bool;
  cursor_vis : Z;
  isendwin : bool
}.

Inductive pane_name : Type := Chats | Msgs | Status.

Inductive event : Type :=
| EvSetRefresh (p : pane_name) (m : bound_method)
| EvEcho
| EvNoecho
| EvCbreak
| EvNocbreak
| EvKeypad (flag : bool)
| EvCursSet (visibility : Z)
| EvEndwin
| EvDoupdate
| EvSystem (cmd : string)
| EvPopen (cmd : string) (input : option string).

Record World : Type := {
  term : Curses;
  view : View;
  trace : list event
}.

(** ** State and exception monad *)

Definition M (A : Type) : Type := World -> result A * World.

Definition ret {A} (a : A) : M A := fun w => (Returned a, w).

Definition raise {A} (e : exn) : M A := fun w => (Raised e, w).

Definition bind {A B} (m : M A) (k : A -> M B) : M B :=
  fun w =>
    match m w with
    | (Returned a, w') => k a w'
    | (Raised e, w') => (Raised e, w')
    end.

Declare Scope py_scope.
Delimit Scope py_scope with py.
Notation "x <- m ;; k" := (bind m (fun x => k))
  (at level 100, m at next level, right associativity) : py_scope.
Notation "m ;; k" := (bind m (fun _ => k))
  (at level 100, right associativity) : py_scope.
Open Scope py_scope.

Definition lift {A} (r : result A) : M A := fun w => (r, w).

Definition emit (e : event) : M unit :=
  fun w => (Returned tt,
            {| term := term w; view := view w; trace := trace w ++ [e] |}).

Definition modify_term (f : Curses -> Curses) : M unit :=
  fun w => (Returned tt,
            {| term := f (term w); view := view w; trace := trace w |}).

Definition modify_view (f : View -> View) : M unit :=
  fun w => (Returned tt,
            {| term := term w; view := f (view w); trace := trace w |}).

Definition get_view : M View := fun w => (Returned (view w), w).

Definition get_term : M Curses := fun w => (Returned (term w), w).

Fixpoint for_each {A} (l : list A) (body : A -> M unit) : M unit :=
  match l with
  | [] => ret tt
  | x :: l' => body x ;; for_each l' body
  end.

(** ** The curses calls used by the session

    The calls are modelled on an initialised screen whose terminal supports
    them, where none of them raises. *)

Definition curses_echo : M unit :=
  modify_term (fun c => {| echo_on := true; cbreak_on := cbreak_on c;
                           cursor_vis := cursor_vis c;
                           isendwin := isendwin c |}) ;;
  emit EvEcho.

Definition curses_noecho : M unit :=
  modify_term (fun c => {| echo_on := false; cbreak_on := cbreak_on c;
                           cursor_vis := cursor_vis c;
                           isendwin := isendwin c |}) ;;
  emit EvNoecho.

Definition curses_cbreak : M unit :=
  modify_term (fun c => {| echo_on := echo_on c; cbreak_on := true;
                           cursor_vis := cursor_vis c;
                           isendwin := isendwin c |}) ;;
  emit EvCbreak.

Definition curses_nocbreak : M unit :=
  modify_term (fun c => {| echo_on := echo_on c; cbreak_on := false;
                           cursor_vis := cursor_vis c;
                           isendwin := isendwin c |}) ;;
  emit EvNocbreak.

(** [curses.curs_set(v)] returns the previous visibility. *)
Definition curses_curs_set (v : Z) : M Z :=
  c <- get_term ;;
  modify_term (fun c => {| echo_on := echo_on c; cbreak_on := cbreak_on c;
                           cursor_vis := v;
                           isendwin := isendwin c |}) ;;
  emit (EvCursSet v) ;;
  ret (cursor_vis c).

Definition curses_endwin : M unit :=
  modify_term (fun c => {| echo_on := echo_on c; cbreak_on := cbreak_on c;
                           cursor_vis := cursor_vis c;
                           isendwin := true |}) ;;
  emit EvEndwin.

(** [curses.doupdate()] redraws the physical screen, which also takes the
    terminal back after an [endwin]. *)
Definition curses_doupdate : M unit :=
  modify_term (fun c => {| echo_on := echo_on c; cbreak_on := cbreak_on c;
                           cursor_vis := cursor_vis c;
                           isendwin := false |}) ;;
  emit EvDoupdate.

(** [self.view.stdscr.keypad(flag)] *)
Definition stdscr_keypad (flag : bool) : M unit :=
  modify_view (fun v => {| chats := chats v; msgs := msgs v;
                           status := status v;
                           stdscr := {| scr_win := scr_win (stdscr v);
                                        keypad_on := flag |} |}) ;;
  emit (EvKeypad flag).

Definition get_pane (p : pane_name) (v : View) : pane :=
  match p with
  | Chats => chats v
  | Msgs => msgs v
  | Status => status v
  end.

Definition set_pane (p : pane_name) (x : pane) (v : View) : View :=
  match p with
  | Chats => {| chats := x; msgs := msgs v; status := status v;
                stdscr := stdscr v |}
  | Msgs => {| chats := chats v; msgs := x; status := status v;
               stdscr := stdscr v |}
  | Status => {| chats := chats v; msgs := msgs v; status := x;
                 stdscr := stdscr v |}
  end.

(** [view._refresh = view.win.<f>] for the pane [p]. *)
Definition set_refresh (f : win_method) (p : pane_name) : M unit :=
  v <- get_view ;;
  let x := get_pane p v in
  let m := {| m_self := win x; m_func := f |} in
  modify_view (set_pane p {| win := win x; _refresh := m |}) ;;
  emit (EvSetRefresh p m).

(** ** get_file_handler *)

Definition get_file_handler (env : Env) (file_path : string)
    (default : option string) : M (option string) :=
  let '(mtype, _) := guess_type env file_path in
  if negb (truthy mtype) then ret default
  else
    let mt := match mtype with Some t => t | None => EmptyString end in
    let '(tests, (handler, _)) := findmatch env mt file_path in
    for_each tests (fun t => emit (EvSystem t)) ;;
    if negb (truthy handler) then
      match DEFAULT_OPEN env with
      | None => raise AttributeError
      | Some template =>
          cmd <- lift (str_format env template (shlex_quote file_path)) ;;
          ret (Some cmd)
      end
    else ret handler.

(** ** class suspend *)

Module suspend.

Section Session.
Variable env : Env.

(** [subprocess.call(cmd, shell=True)]; the status is dropped. *)
Definition call (cmd : string) : M unit :=
  emit (EvPopen cmd None) ;;
  _ <- lift (run_shell env cmd None) ;;
  ret tt.

(** [subprocess.run(cmd, universal_newlines=True, input=text, shell=True)];
    the completed process is dropped. *)
Definition run_with_input (cmd text : string) : M unit :=
  emit (EvPopen cmd (Some text)) ;;
  _ <- lift (run_shell env cmd (Some text)) ;;
  ret tt.

Definition open_file (file_path : string) : M unit :=
  cmd <- get_file_handler env file_path None ;;
  if negb (truthy cmd) then ret tt
  else call (match cmd with Some c => c | None => EmptyString end).

Definition __enter__ : M unit :=
  for_each [Chats; Msgs; Status] (set_refresh noutrefresh) ;;
  curses_echo ;;
  curses_nocbreak ;;
  stdscr_keypad false ;;
  _ <- curses_curs_set 1 ;;
  curses_endwin.

Definition __exit__ (exc : option exn) : M unit :=
  for_each [Chats; Msgs; Status] (set_refresh refresh) ;;
  curses_noecho ;;
  curses_cbreak ;;
  stdscr_keypad true ;;
  _ <- curses_curs_set 0 ;;
  curses_doupdate.

(** [with suspend(view) as s: body]: [__exit__] returns [None], which is
    false, so an exception of the body is raised again after it. *)
Definition with_suspend (body : M unit) : M unit :=
  fun w =>
    match __enter__ w with
    | (Raised e, w1) => (Raised e, w1)
    | (Returned _, w1) =>
        match body w1 with
        | (Returned _, w2) => __exit__ None w2
        | (Raised e, w2) =>
            match __exit__ (Some e) w2 with
            | (Returned _, w3) => (Raised e, w3)
            | (Raised e', w3) => (Raised e', w3)
            end
        end
    end.

End Session.

End suspend.

(** ** Observations on the world *)

Record TerminalMode : Type := {
  tm_echo : bool;
  tm_cbreak : bool;
  tm_keypad : bool;
  tm_cursor : Z
}.

Definition terminal_mode (w : World) : TerminalMode :=
  {| tm_echo := echo_on (term w);
     tm_cbreak := cbreak_on (term w);
     tm_keypad := keypad_on (stdscr (view w));
     tm_cursor := cursor_vis (term w) |}.

(** The refresh strategy of the panes [chats], [msgs] and [status]. *)
Definition refresh_strategies (w : World)
    : bound_method * bound_method * bound_method :=
  (_refresh (chats (view w)), _refresh (msgs (view w)),
   _refresh (status (view w))).

Definition pane_windows (w : World) : window * window * window :=
  (win (chats (view w)), win (msgs (view w)), win (status (view w))).

Definition bound (x : pane) (f : win_method) : bound_method :=
  {| m_self := win x; m_func := f |}.

Definition method_eqb (f g : win_method) : bool :=
  match f, g with
  | refresh, refresh | noutrefresh, noutrefresh => true
  | _, _ => false
  end.

Definition bound_eqb (a b : bound_method) : bool :=
  Nat.eqb (m_self a) (m_self b) && method_eqb (m_func a) (m_func b).

(** The state the UI draws in, which is also the state [__exit__] sets: no
    echo, cbreak, keypad decoding, hidden cursor, and every pane refreshing
    through the [refresh] of its own window. *)
Definition is_active (w : World) : bool :=
  negb (echo_on (term w)) && cbreak_on (term w)
  && keypad_on (stdscr (view w)) && Z.eqb (cursor_vis (term w)) 0
  && bound_eqb (_refresh (chats (view w))) (bound (chats (view w)) refresh)
  && bound_eqb (_refresh (msgs (view w))) (bound (msgs (view w)) refresh)
  && bound_eqb (_refresh (status (view w))) (bound (status (view w)) refresh).

(** A scope body that leaves every pane on the window it had. *)
Definition keeps_windows (body : M unit) : Prop :=
  forall w, pane_windows (snd (body w)) = pane_windows w.

(** [window.noutrefresh] marks the window for a later [doupdate] (batched);
    [window.refresh] updates the display at once (immediate). *)
Inductive strategy : Type := Batched | Immediate.

Definition strategy_of (m : bound_method) : strategy :=
  match m_func m with
  | refresh => Immediate
  | noutrefresh => Batched
  end.

Definition is_launch (e : event) : bool :=
  match e with
  | EvSystem _ | EvPopen _ _ => true
  | _ => false
  end.

Definition is_doupdate (e : event) : bool :=
  match e with
  | EvDoupdate => true
  | _ => false
  end.

Definition launches (w : World) : nat :=
  length (filter is_launch (trace w)).

(** The calls of [__enter__] and of [__exit__], in order, on a view [v]. *)
Definition enter_actions (v : View) : list event :=
  [ EvSetRefresh Chats (bound (chats v) noutrefresh);
    EvSetRefresh Msgs (bound (msgs v) noutrefresh);
    EvSetRefresh Status (bound (status v) noutrefresh);
    EvEcho; EvNocbreak; EvKeypad false; EvCursSet 1; EvEndwin ].

Definition exit_actions (v : View) : list event :=
  [ EvSetRefresh Chats (bound (chats v) refresh);
    EvSetRefresh Msgs (bound (msgs v) refresh);
    EvSetRefresh Status (bound (status v) refresh);
    EvNoecho; EvCbreak; EvKeypad true; EvCursSet 0; EvDoupdate ].

Definition rebind (f : win_method) (x : pane) : pane :=
  {| win := win x; _refresh := bound x f |}.

(** The world [__exit__] leaves. *)
Definition resumed (w : World) : World :=
  {| term := {| echo_on := false; cbreak_on := true; cursor_vis := 0;
                isendwin := false |};
     view := {| chats := rebind refresh (chats (view w));
                msgs := rebind refresh (msgs (view w));
                status := rebind refresh (status (view w));
                stdscr := {| scr_win := scr_win (stdscr (view w));
                             keypad_on := true |} |};
     trace := trace w ++ exit_actions (view w) |}.

(** The world [__enter__] leaves. *)
Definition suspended (w : World) : World :=
  {| term := {| echo_on := true; cbreak_on := false; cursor_vis := 1;
                isendwin := true |};
     view := {| chats := rebind noutrefresh (chats (view w));
                msgs := rebind noutrefresh (msgs (view w));
                status := rebind noutrefresh (status (view w));
                stdscr := {| scr_win := scr_win (stdscr (view w));
                             keypad_on := false |} |};
     trace := trace w ++ enter_actions (view w) |}.

(** ** The resolver as the specification words it

    Section 4.1: without a media type the result is the default opener
    template with the quoted path, absent when the template is unset; with a
    media type, the registry's command, else the same fallback. *)

Definition default_opener (env : Env) (file_path : string)
    : result (option string) :=
  match DEFAULT_OPEN env with
  | None => Returned None
  | Some template =>
      match str_format env template (shlex_quote file_path) with
      | Returned cmd => Returned (Some cmd)
      | Raised e => Raised e
      end
  end.

Definition resolve_spec (env : Env) (file_path : string)
    : result (option string) :=
  let mtype := fst (guess_type env file_path) in
  if truthy mtype then
    let mt := match mtype with Some t => t | None => EmptyString end in
    let handler := fst (snd (findmatch env mt file_path)) in
    if truthy handler then Returned handler
    else default_opener env file_path
  else default_opener env file_path.

(** ** A sample environment

    A media-type table of two extensions, a registry with a handler for
    video files only, and the template [less {file_path}]. *)

Fixpoint ends_with (suffix s : string) : bool :=
  String.eqb suffix s
  || match s with
     | EmptyString => false
     | String _ s' => ends_with suffix s'
     end.

Fixpoint all_digits (s : string) : bool :=
  match s with
  | EmptyString => true
  | String c s' => in_range 48 57 c && all_digits s'
  end.

(** Where the scan of a template stands: in literal text, after an opening
    brace, after a closing brace, or inside a replacement field whose name
    read so far is kept. *)
Inductive fmt_state : Type :=
| InText
| AfterOpen
| AfterClose
| InField (name : string).

Definition field_value (name value : string) : result string :=
  if String.eqb name "file_path" then Returned value
  else if all_digits name then Raised IndexError
  else Raised KeyError.

(** [template.format(file_path=value)] for templates whose replacement
    fields are plain names: doubled braces are literal braces, the field
    [file_path] is replaced by the value, a positional field raises
    [IndexError], another name [KeyError], a single brace [ValueError]. *)
Fixpoint format_from (st : fmt_state) (template value : string)
    : result string :=
  let emit_char c rest :=
    match format_from InText rest value with
    | Returned out => Returned (String c out)
    | Raised e => Raised e
    end in
  let emit_field name rest :=
    match field_value name value with
    | Returned v =>
        match format_from InText rest value with
        | Returned out => Returned (v ++ out)
        | Raised e => Raised e
        end
    | Raised e => Raised e
    end in
  match template with
  | EmptyString =>
      match st with
      | InText => Returned EmptyString
      | _ => Raised ValueError
      end
  | String c rest =>
      match st with
      | InText =>
          if Ascii.eqb c "{" then format_from AfterOpen rest value
          else if Ascii.eqb c "}" then format_from AfterClose rest value
          else emit_char c rest
      | AfterOpen =>
          if Ascii.eqb c "{" then emit_char c rest
          else if Ascii.eqb c "}" then emit_field EmptyString rest
          else format_from (InField (String c EmptyString)) rest value
      | AfterClose =>
          if Ascii.eqb c "}" then emit_char c rest
          else Raised ValueError
      | InField name =>
          if Ascii.eqb c "}" then emit_field name rest
          else if Ascii.eqb c "{" then Raised ValueError
          else format_from (InField (name ++ String c EmptyString)) rest value
      end
  end.

Definition format_plain : string -> string -> result string :=
  format_from InText.

Definition sample_guess_type (file_path : string)
    : option string * option string :=
  if ends_with ".txt" file_path then (Some "text/plain", None)
  else if ends_with ".mp4" file_path then (Some "video/mp4", None)
  else (None, None).

Definition sample_findmatch (mtype file_path : string)
    : list string * (option string * option mailcap_entry) :=
  if String.eqb mtype "video/mp4"
  then ([], (Some ("mpv " ++ file_path), Some [("view", "mpv %s")]))
  else ([], (None, None)).

(** The shell reports status 127 for a command it cannot find; starting
    the shell itself fails for [boom]. *)
Definition sample_run_shell (cmd : string) (input : option string)
    : result Z :=
  if String.eqb cmd "nosuchcmd" then Returned 127%Z
  else if String.eqb cmd "false" then Returned 1%Z
  else if String.eqb cmd "boom" then Raised OSError
  else Returned 0%Z.

Definition sample_env : Env :=
  {| guess_type := sample_guess_type;
     findmatch := sample_findmatch;
     DEFAULT_OPEN := Some "less {file_path}";
     str_format := format_plain;
     run_shell := sample_run_shell |}.

Definition ui_view : View :=
  {| chats := {| win := 1; _refresh := {| m_self := 1; m_func := refresh |} |};
     msgs := {| win := 2; _refresh := {| m_self := 2; m_func := refresh |} |};
     status := {| win := 3; _refresh := {| m_self := 3; m_func := refresh |} |};
     stdscr := {| scr_win := 0; keypad_on := true |} |}.

(** The UI while it owns the terminal. *)
Definition ui_world : World :=
  {| term := {| echo_on := false; cbreak_on := true; cursor_vis := 0;
                isendwin := false |};
     view := ui_view;
     trace := [] |}.

(** The same UI on a terminal that still echoes its input. *)
Definition echoing_world : World :=
  {| term := {| echo_on := true; cbreak_on := true; cursor_vis := 0;
                isendwin := false |};
     view := ui_view;
     trace := [] |}.

(** ** The properties as they are claimed *)

(** Symmetry of one scope run from [w]: the terminal mode and the three
    refresh strategies after the scope are those of [w]. *)
Definition scope_symmetric (body : M unit) (w : World) : Prop :=
  let w' := snd (suspend.with_suspend body w) in
  terminal_mode w' = terminal_mode w
  /\ refresh_strategies w' = refresh_strategies w.

(** Entry switches every pane to the immediate strategy; exit from the
    suspended state switches it to the batched one and redraws once. *)
Definition entry_immediate_exit_batched (w : World) : Prop :=
  let entered := snd (suspend.__enter__ w) in
  let left := snd (suspend.__exit__ None entered) in
  (forall p, strategy_of (_refresh (get_pane p (view entered))) = Immediate)
  /\ (forall p, strategy_of (_refresh (get_pane p (view left))) = Batched)
  /\ filter is_doupdate (trace left)
     = (filter is_doupdate (trace entered) ++ [EvDoupdate])%list.

(** The resolver, called with the path alone, follows the fallback order of
    the specification. *)
Definition fallback_order (env : Env) (file_path : string) (w : World)
    : Prop :=
  fst (get_file_handler env file_path None w) = resolve_spec env file_path.

Definition media_type (env : Env) (file_path : string) : option string :=
  fst (guess_type env file_path).

(** The command of the handler registry for a path whose media type is
    known. *)
Definition registry_handler (env : Env) (file_path : string)
    : option string :=
  match media_type env file_path with
  | Some t => fst (snd (findmatch env t file_path))
  | None => None
  end.

(** No method finds a handler: the registry has no command for the path
    and no default opener template is configured. *)
Definition no_handler_by_any_method (env : Env) (file_path : string)
    : Prop :=
  (truthy (media_type env file_path) = false
   \/ truthy (registry_handler env file_path) = false)
  /\ DEFAULT_OPEN env = None.

Definition never_raises_absent_only_on_miss (env : Env) (file_path : string)
    (w : World) : Prop :=
  (exists r, fst (get_file_handler env file_path None w) = Returned r)
  /\ (fst (get_file_handler env file_path None w) = Returned None ->
      no_handler_by_any_method env file_path).

(** [w'] has the curses state and the view of [w], hence its terminal mode
    and its refresh strategies. *)
Definition same_ui (w w' : World) : Prop :=
  term w' = term w /\ view w' = view w
  /\ terminal_mode w' = terminal_mode w
  /\ refresh_strategies w' = refresh_strategies w.

(** The world after one more event. *)
Definition logged (e : event) (w : World) : World :=
  {| term := term w; view := view w; trace := trace w ++ [e] |}.

(** ** shlex.split

    [shlex.split(s)] reads [s] with a POSIX lexer that splits on whitespace
    only and knows no comment character.  The lexer is in one of four
    states: between words, in a word, in a quotation opened by [q], or
    after a backslash, where it remembers the quotation it came from. *)

Inductive lex_state : Type :=
| LexSpace
| LexWord
| LexQuote (q : ascii)
| LexEscape (back : option ascii).

Definition backslash : ascii := "092"%char.

Definition lex_whitespace (c : ascii) : bool :=
  let n := nat_of_ascii c in
  Nat.eqb n 32 || Nat.eqb n 9 || Nat.eqb n 13 || Nat.eqb n 10.

Definition lex_quote (c : ascii) : bool :=
  Ascii.eqb c squote || Ascii.eqb c dquote.

Definition lex_escape (c : ascii) : bool := Ascii.eqb c backslash.

Definition nonempty (s : string) : bool :=
  match s with
  | EmptyString => false
  | String _ _ => true
  end.

(** [lex st quoted token out s]: the words read from [s] after the words
    [out], when the lexer is in state [st] with the word [token] begun;
    [quoted] tells that a quotation was met in this word, so that an empty
    word counts. *)
Fixpoint lex (st : lex_state) (quoted : bool) (token : string)
    (out : list string) (s : string) : result (list string) :=
  match s with
  | EmptyString =>
      match st with
      | LexSpace | LexWord =>
          if nonempty token || quoted then Returned (out ++ [token])%list
          else Returned out
      | LexQuote _ => Raised ValueError
      | LexEscape _ => Raised ValueError
      end
  | String c rest =>
      match st with
      | LexSpace =>
          if lex_whitespace c then
            if nonempty token || quoted
            then lex LexSpace false EmptyString (out ++ [token])%list rest
            else lex LexSpace quoted token out rest
          else if lex_escape c then lex (LexEscape None) quoted token out rest
          else if lex_quote c then lex (LexQuote c) quoted token out rest
          else lex LexWord quoted (String c EmptyString) out rest
      | LexWord =>
          if lex_whitespace c then
            if nonempty token || quoted
            then lex LexSpace false EmptyString (out ++ [token])%list rest
            else lex LexSpace quoted token out rest
          else if lex_quote c then lex (LexQuote c) quoted token out rest
          else if lex_escape c then lex (LexEscape None) quoted token out rest
          else lex LexWord quoted (token ++ String c EmptyString) out rest
      | LexQuote q =>
          if Ascii.eqb c q then lex LexWord true token out rest
          else if lex_escape c && Ascii.eqb q dquote
          then lex (LexEscape (Some q)) true token out rest
          else lex (LexQuote q) true (token ++ String c EmptyString) out rest
      | LexEscape None =>
          lex LexWord quoted (token ++ String c EmptyString) out rest
      | LexEscape (Some q) =>
          let kept :=
            if negb (lex_escape c) && negb (Ascii.eqb c q)
            then token ++ String backslash EmptyString
            else token in
          lex (LexQuote q) quoted (kept ++ String c EmptyString) out rest
      end
  end.

Definition shlex_split (s : string) : result (list string) :=
  lex LexSpace false EmptyString [] s.

(** The lexer on a text that is followed by more: the state, the
    quotation flag, the word begun and the words read when the text ends. *)
Fixpoint lex_run (st : lex_state) (quoted : bool) (token : string)
    (out : list string) (s : string)
    : lex_state * bool * string * list string :=
  match s with
  | EmptyString => (st, quoted, token, out)
  | String c rest =>
      match st with
      | LexSpace =>
          if lex_whitespace c then
            if nonempty token || quoted
            then lex_run LexSpace false EmptyString (out ++ [token])%list rest
            else lex_run LexSpace quoted token out rest
          else if lex_escape c
          then lex_run (LexEscape None) quoted token out rest
          else if lex_quote c then lex_run (LexQuote c) quoted token out rest
          else lex_run LexWord quoted (String c EmptyString) out rest
      | LexWord =>
          if lex_whitespace c then
            if nonempty token || quoted
            then lex_run LexSpace false EmptyString (out ++ [token])%list rest
            else lex_run LexSpace quoted token out rest
          else if lex_quote c then lex_run (LexQuote c) quoted token out rest
          else if lex_escape c
          then lex_run (LexEscape None) quoted token out rest
          else lex_run LexWord quoted (token ++ String c EmptyString) out rest
      | LexQuote q =>
          if Ascii.eqb c q then lex_run LexWord true token out rest
          else if lex_escape c && Ascii.eqb q dquote
          then lex_run (LexEscape (Some q)) true token out rest
          else lex_run (LexQuote q) true (token ++ String c EmptyString)
                 out rest
      | LexEscape None =>
          lex_run LexWord quoted (token ++ String c EmptyString) out rest
      | LexEscape (Some q) =>
          let kept :=
            if negb (lex_escape c) && negb (Ascii.eqb c q)
            then token ++ String backslash EmptyString
            else token in
          lex_run (LexQuote q) quoted (kept ++ String c EmptyString) out rest
      end
  end.

(** The state in what [lex_run] returns. *)
Definition lex_state_of (r : lex_state * bool * string * list string)
    : lex_state :=
  fst (fst (fst r)).

(** ** Probing media files with ffprobe *)

(** [needle in s] *)
Fixpoint contains (needle s : string) : bool :=
  String.prefix needle s
  || match s with
     | EmptyString => false
     | String _ s' => contains needle s'
     end.

(** [s.split(sep)] for a separator of one character. *)
Fixpoint split_on (sep : ascii) (s : string) : list string :=
  match s with
  | EmptyString => [EmptyString]
  | String c rest =>
      if Ascii.eqb c sep then EmptyString :: split_on sep rest
      else match split_on sep rest with
           | field :: fields => String c field :: fields
           | [] => [String c EmptyString]
           end
  end.

(** A [dict] of strings, in insertion order. *)
Definition dict : Type := list (string * string).

Fixpoint dict_get (k : string) (d : dict) : option string :=
  match d with
  | [] => None
  | (k', v) :: d' => if String.eqb k k' then Some v else dict_get k d'
  end.

Fixpoint dict_set (k v : string) (d : dict) : dict :=
  match d with
  | [] => [(k, v)]
  | (k', v') :: d' =>
      if String.eqb k k' then (k', v) :: d' else (k', v') :: dict_set k v d'
  end.

(** [str(x)] for an [Optional[str]]. *)
Definition str_of_optional (o : option string) : string :=
  match o with
  | Some s => s
  | None => "None"
  end.

Definition ffprobe_format_cmd (file_path : string) : string :=
  "ffprobe -v error -i '" ++ file_path ++ "' -show_format".

Definition ffprobe_stream_cmd (file_path : string) : string :=
  "ffprobe -v error -show_entries stream=width,height -of default=noprint_wrappers=1 '"
  ++ file_path ++ "'".

Section Probe.

(** [subprocess.check_output(argv).decode().splitlines()]: the lines the
    process wrote, or the error of a process that cannot be run, exits with
    a status other than zero or writes text that does not decode. *)
Variable check_output : list string -> result (list string).

(** [int(float(text))] and [int(text)]. *)
Variable int_of_float : string -> result Z.
Variable py_int : string -> result Z.

(** The lines after [stdout] is assigned in [get_duration]; the call of
    [log.info] is left out. *)
Definition duration_of_lines (stdout : list string) : result Z :=
  match find (contains "duration") stdout with
  | Some line =>
      if nonempty line then
        match split_on "=" line with
        | [_; duration] => int_of_float duration
        | _ => Raised ValueError
        end
      else Returned 0%Z
  | None => Returned 0%Z
  end.

Definition get_duration (file_path : string) : result Z :=
  match shlex_split (ffprobe_format_cmd file_path) with
  | Raised e => Raised e
  | Returned argv =>
      match check_output argv with
      | Raised e => Raised e
      | Returned stdout => duration_of_lines stdout
      end
  end.

(** The dict comprehension of [get_video_resolution], over the lines that
    are left, from the dict built so far. *)
Fixpoint info_of_lines (lines : list string) (info : dict) : result dict :=
  match lines with
  | [] => Returned info
  | line :: lines' =>
      match split_on "=" line with
      | key :: value :: _ => info_of_lines lines' (dict_set key value info)
      | _ => Raised IndexError
      end
  end.

Definition resolution_of_lines (lines : list string) : result (Z * Z) :=
  match info_of_lines lines [] with
  | Raised e => Raised e
  | Returned info =>
      match py_int (str_of_optional (dict_get "width" info)) with
      | Raised e => Raised e
      | Returned width =>
          match py_int (str_of_optional (dict_get "height" info)) with
          | Raised e => Raised e
          | Returned height => Returned (width, height)
          end
      end
  end.

Definition get_video_resolution (file_path : string) : result (Z * Z) :=
  match shlex_split (ffprobe_stream_cmd file_path) with
  | Raised e => Raised e
  | Returned argv =>
      match check_output argv with
      | Raised e => Raised e
      | Returned lines => resolution_of_lines lines
      end
  end.

End Probe.

(** ** A sample ffprobe

    It reports a duration of 12.5 seconds for every file, two streams of
    640x360 and 1920x1080 for a video, and a blank line between width and
    height for the file [blank.mp4]. *)

Fixpoint digits_value (acc : Z) (s : string) : option Z :=
  match s with
  | EmptyString => Some acc
  | String c rest =>
      if in_range 48 57 c
      then digits_value (10 * acc + Z.of_nat (nat_of_ascii c) - 48)%Z rest
      else None
  end.

(** [int(text)] on texts that are decimal digits or hold another
    character. *)
Definition sample_py_int (text : string) : result Z :=
  match text with
  | EmptyString => Raised ValueError
  | _ => match digits_value 0 text with
         | Some n => Returned n
         | None => Raised ValueError
         end
  end.

(** [int(float(text))] on the texts [12.5] and [duration.mp4]. *)
Definition sample_int_of_float (text : string) : result Z :=
  if String.eqb text "12.5" then Returned 12%Z else Raised ValueError.

Definition sample_check_output (argv : list string)
    : result (list string) :=
  match nth_error argv 3 with
  | Some flag =>
      if String.eqb flag "-i" then
        Returned ["[FORMAT]"; "filename=" ++ nth 4 argv EmptyString;
                  "duration=12.5"; "[/FORMAT]"]
      else if String.eqb (nth 7 argv EmptyString) "blank.mp4" then
        Returned ["width=640"; EmptyString; "height=360"]
      else Returned ["width=640"; "height=360"; "width=1920"; "height=1080"]
  | None => Raised OSError
  end.

(** ** truncate_to_len

    Python indexes and slices a [str] by code points, so the text is the
    list of its code points here. *)

(** The class of [emoji_pattern]: emoticons, symbols and pictographs,
    transport and map symbols, flags. *)
Definition emoji (c : Z) : bool :=
  ((0x1F600 <=? c) && (c <=? 0x1F64F)
   || (0x1F300 <=? c) && (c <=? 0x1F5FF)
   || (0x1F680 <=? c) && (c <=? 0x1F6FF)
   || (0x1F1E0 <=? c) && (c <=? 0x1F1FF))%Z.

(** [s[:n]]: a negative [n] counts from the end. *)
Definition slice_to (n : Z) (s : list Z) : list Z :=
  if (0 <=? n)%Z then firstn (Z.to_nat n) s
  else firstn (length s - Z.to_nat (- n)) s.

(** [sum(map(bool, map(emoji_pattern.findall, s)))]: the characters of [s]
    in which the pattern finds a match. *)
Definition count_emoji (s : list Z) : Z :=
  Z.of_nat (length (filter emoji s)).

Definition truncate_to_len (s : list Z) (target_len : Z) : list Z :=
  let target_len := (target_len - count_emoji (slice_to target_len s))%Z in
  slice_to (Z.max 1 (target_len - 1)) s.

(** The columns a text takes when an emoji takes two. *)
Definition columns (s : list Z) : Z :=
  (Z.of_nat (length s) + count_emoji s)%Z.

(** The launches of [subprocess]. *)
Definition is_popen (e : event) : bool :=
  match e with
  | EvPopen _ _ => true
  | _ => false
  end.

(** ** set_shorter_esc_delay

    [os.environ] is a [dict] of strings; [str(n)] is the decimal writing
    of [n]. *)

Definition str_of_int (n : Z) : string :=
  NilZero.string_of_int (Z.to_int n).

(** [d.setdefault(k, v)], for the dict it leaves. *)
Definition setdefault (k v : string) (d : dict) : dict :=
  match dict_get k d with
  | Some _ => d
  | None => dict_set k v d
  end.

Definition set_shorter_esc_delay (delay : Z) (environ : dict) : dict :=
  setdefault "ESCDELAY" (str_of_int delay) environ.

(** ** humanize_duration

    [datetime.utcfromtimestamp(seconds)] counts the seconds from midnight
    of 1 January 1970, so the hour, minute and second of the date are the
    remainders below; it returns for the timestamps of the years 1 to 9999
    and raises beyond, which is [None] here.  [%-H] and [%-M] write a
    number without padding, [%M] and [%S] on two digits. *)

Definition two_digits (n : Z) : string :=
  if (n <? 10)%Z then "0" ++ str_of_int n else str_of_int n.

Definition humanize_duration (seconds : Z) : option string :=
  if ((seconds <? -62135596800) || (253402300799 <? seconds))%Z then None
  else
    let hour := ((seconds / 3600) mod 24)%Z in
    let minute := ((seconds / 60) mod 60)%Z in
    let second := (seconds mod 60)%Z in
    if (3600 <=? seconds)%Z
    then Some (str_of_int hour ++ ":" ++ two_digits minute ++ ":"
               ++ two_digits second)
    else Some (str_of_int minute ++ ":" ++ two_digits second).

(** ** parse_size

    The size is the list of its code points, which the code indexes from
    the end. *)

Definition text_of (s : string) : list Z :=
  map (fun c => Z.of_nat (nat_of_ascii c)) (list_ascii_of_string s).

Fixpoint text_eqb (a b : list Z) : bool :=
  match a, b with
  | [], [] => true
  | x :: a', y :: b' => Z.eqb x y && text_eqb a' b'
  | _, _ => false
  end.

(** [s[n:]]: a negative [n] counts from the end. *)
Definition slice_from (n : Z) (s : list Z) : list Z :=
  if (0 <=? n)%Z then skipn (Z.to_nat n) s
  else skipn (length s - Z.to_nat (- n)) s.

(** [s[-n]] for [n] above zero: [None] stands for the [IndexError] of a
    text shorter than [n]. *)
Definition index_from_end (n : nat) (s : list Z) : option Z :=
  if (length s <? n)%nat then None else nth_error s (length s - n).

Definition units : list (list Z * Z) :=
  [ (text_of "B", 1%Z); (text_of "KB", (10 ^ 3)%Z);
    (text_of "MB", (10 ^ 6)%Z); (text_of "GB", (10 ^ 9)%Z);
    (text_of "TB", (10 ^ 12)%Z) ].

Fixpoint units_get (unit : list Z) (table : list (list Z * Z)) : option Z :=
  match table with
  | [] => None
  | (u, k) :: table' =>
      if text_eqb unit u then Some k else units_get unit table'
  end.

Section Size.

(** The floating-point numbers of Python, [float(text)] and [int(x * k)]
    for an integer [k]. *)
Variable float : Type.
Variable py_float : list Z -> result float.
Variable int_of_product : float -> Z -> result Z.

(** [c.isalpha()] for a character beyond ASCII. *)
Variable isalpha_beyond_ascii : Z -> bool.

Definition isalpha (c : Z) : bool :=
  if (c <? 128)%Z
  then ((65 <=? c) && (c <=? 90) || (97 <=? c) && (c <=? 122))%Z
  else isalpha_beyond_ascii c.

Definition parse_size (size : list Z) : result Z :=
  match index_from_end 2 size with
  | None => Raised IndexError
  | Some c =>
      let '(number, unit) :=
        if isalpha c then (slice_to (-2) size, slice_from (-2) size)
        else (slice_to (-1) size, slice_from (-1) size) in
      match py_float number with
      | Raised e => Raised e
      | Returned x =>
          match units_get unit units with
          | None => Raised KeyError
          | Some k => int_of_product x k
          end
      end
  end.

End Size.

(** ** Sample floats

    Numbers written with decimal digits only, where the float is the
    integer written and the product is exact. *)

Fixpoint text_digits_value (acc : Z) (t : list Z) : option Z :=
  match t with
  | [] => Some acc
  | c :: t' =>
      if ((48 <=? c) && (c <=? 57))%Z
      then text_digits_value (10 * acc + c - 48)%Z t'
      else None
  end.

Definition sample_py_float (t : list Z) : result Z :=
  match t with
  | [] => Raised ValueError
  | _ => match text_digits_value 0 t with
         | Some n => Returned n
         | None => Raised ValueError
         end
  end.

Definition sample_int_of_product (x k : Z) : result Z :=
  Returned (x * k)%Z.

Definition sample_parse_size (size : string) : result Z :=
  parse_size Z sample_py_float sample_int_of_product (fun _ => false)
    (text_of size).

(** ** get_waveform

    [struct.pack] of one hundred [B] values gives the bytes that hold them
    and [base64.b64encode] writes three bytes on four characters of its
    alphabet, padding the last group with equals signs. *)

Definition b64_alphabet : string :=
  "ABCDEFGHIJKLMNOPQRSTUVWXYZabcdefghijklmnopqrstuvwxyz0123456789+/".

Definition b64_char (n : Z) : ascii :=
  match String.get (Z.to_nat n) b64_alphabet with
  | Some c => c
  | None => "="%char
  end.

Fixpoint b64encode (bytes : list Z) : string :=
  match bytes with
  | [] => EmptyString
  | [a] =>
      String (b64_char (a / 4))
        (String (b64_char (a mod 4 * 16)) "==")
  | [a; b] =>
      String (b64_char (a / 4))
        (String (b64_char (a mod 4 * 16 + b / 16))
           (String (b64_char (b mod 16 * 4)) "="))
  | a :: b :: c :: rest =>
      String (b64_char (a / 4))
        (String (b64_char (a mod 4 * 16 + b / 16))
           (String (b64_char (b mod 16 * 4 + c / 64))
              (String (b64_char (c mod 64)) (b64encode rest))))
  end.

(** [get_waveform(file_path)], where [draws] are the hundred values that
    [random.randint(0, 255)] returns, in the order they are drawn. *)
Definition get_waveform (draws : list Z) (file_path : string) : string :=
  b64encode draws.

(** ** Launches that fail

    [subprocess] refuses a command that holds a null character: it raises
    [ValueError] before any process is started.  The sample shell with this
    check: *)

Definition nul : ascii := "000"%char.

Definition checked_run_shell (cmd : string) (input : option string)
    : result Z :=
  if mem_char nul cmd then Raised ValueError
  else sample_run_shell cmd input.

Definition checked_env : Env :=
  {| guess_type := sample_guess_type;
     findmatch := sample_findmatch;
     DEFAULT_OPEN := Some "less {file_path}";
     str_format := format_plain;
     run_shell := checked_run_shell |}.

(** A payload returns to its caller without an error. *)
Definition returns_normally (payload : M unit) (w : World) : Prop :=
  fst (payload w) = Returned tt.

(** No failure of the child process reaches the caller of [call] or of
    [run_with_input]. *)
Definition never_surfaced (env : Env) (cmd text : string) (w : World)
    : Prop :=
  returns_normally (suspend.call env cmd) w
  /\ returns_normally (suspend.run_with_input env cmd text) w.

(** [s.count(c)] *)
Fixpoint count_char (c : ascii) (s : string) : nat :=
  match s with
  | EmptyString => 0
  | String d s' => (if Ascii.eqb d c then 1 else 0) + count_char c s'
  end.

(** [s.split(sep)[0]]: the text before the first separator, the whole
    text when there is none. *)
Definition first_field (sep : ascii) (s : string) : string :=
  hd EmptyString (split_on sep s).

(** ** Running the entry and exit actions *)

Lemma enter_run : forall w,
  suspend.__enter__ w = (Returned tt, suspended w).
Proof.
  intros w. unfold suspended, enter_actions.
  cbv -[app]. repeat rewrite <- app_assoc. reflexivity.
Qed.

Lemma exit_run : forall exc w,
  suspend.__exit__ exc w = (Returned tt, resumed w).
Proof.
  intros exc w. unfold resumed, exit_actions.
  cbv -[app]. repeat rewrite <- app_assoc. reflexivity.
Qed.

Lemma with_suspend_run : forall (body : M unit) w,
  suspend.with_suspend body w
  = (fst (body (suspended w)), resumed (snd (body (suspended w)))).
Proof.
  intros body w. unfold suspend.with_suspend.
  rewrite enter_run.
  destruct (body (suspended w)) as [[[]|e] w2]; cbn [fst snd];
    rewrite exit_run; reflexivity.
Qed.

Lemma bound_eqb_eq : forall a b, bound_eqb a b = true -> a = b.
Proof.
  intros [s f] [s' f']. unfold bound_eqb. cbn.
  intros H. apply andb_true_iff in H. destruct H as [Hs Hf].
  apply Nat.eqb_eq in Hs. subst s'.
  destruct f, f'; try discriminate; reflexivity.
Qed.

Lemma is_active_inv : forall w,
  is_active w = true ->
  terminal_mode w
  = {| tm_echo := false; tm_cbreak := true; tm_keypad := true;
       tm_cursor := 0 |}
  /\ _refresh (chats (view w)) = bound (chats (view w)) refresh
  /\ _refresh (msgs (view w)) = bound (msgs (view w)) refresh
  /\ _refresh (status (view w)) = bound (status (view w)) refresh.
Proof.
  intros w H. unfold is_active in H.
  repeat rewrite andb_true_iff in H.
  destruct H as [[[[[[He Hc] Hk] Hv] H1] H2] H3].
  repeat split; try (apply bound_eqb_eq; assumption).
  unfold terminal_mode.
  apply negb_true_iff in He. apply Z.eqb_eq in Hv.
  rewrite He, Hc, Hk, Hv. reflexivity.
Qed.

(** ** What the resolver and the payload operations leave untouched *)

Lemma for_each_emit_run : forall (tests : list string) w,
  for_each tests (fun t => emit (EvSystem t)) w
  = (Returned tt,
     {| term := term w; view := view w;
        trace := trace w ++ map EvSystem tests |}).
Proof.
  induction tests as [|t tests IH]; intros w.
  - cbn. rewrite app_nil_r. destruct w; reflexivity.
  - cbn [for_each]. unfold bind at 1. unfold emit at 1.
    rewrite IH. cbn. rewrite <- app_assoc. reflexivity.
Qed.

Lemma get_file_handler_frame : forall env file_path default w,
  term (snd (get_file_handler env file_path default w)) = term w
  /\ view (snd (get_file_handler env file_path default w)) = view w.
Proof.
  intros env file_path default w. unfold get_file_handler.
  destruct (guess_type env file_path) as [mtype enc].
  destruct (truthy mtype); cbn [negb]; [|split; reflexivity].
  destruct (findmatch env _ file_path) as [tests [handler entry]].
  unfold bind. rewrite for_each_emit_run.
  destruct (truthy handler); cbn [negb]; [split; reflexivity|].
  destruct (DEFAULT_OPEN env) as [template|]; [|split; reflexivity].
  unfold lift, ret.
  destruct (str_format env template (shlex_quote file_path));
    split; reflexivity.
Qed.

Lemma call_frame : forall env cmd w,
  term (snd (suspend.call env cmd w)) = term w
  /\ view (snd (suspend.call env cmd w)) = view w.
Proof.
  intros env cmd w. unfold suspend.call, bind, emit, lift, ret.
  destruct (run_shell env cmd None); split; reflexivity.
Qed.

Lemma run_with_input_frame : forall env cmd text w,
  term (snd (suspend.run_with_input env cmd text w)) = term w
  /\ view (snd (suspend.run_with_input env cmd text w)) = view w.
Proof.
  intros env cmd text w.
  unfold suspend.run_with_input, bind, emit, lift, ret.
  destruct (run_shell env cmd (Some text)); split; reflexivity.
Qed.

Lemma open_file_frame : forall env file_path w,
  term (snd (suspend.open_file env file_path w)) = term w
  /\ view (snd (suspend.open_file env file_path w)) = view w.
Proof.
  intros env file_path w. unfold suspend.open_file. unfold bind.
  pose proof (get_file_handler_frame env file_path None w) as [Ht Hv].
  destruct (get_file_handler env file_path None w) as [[cmd|e] w1];
    cbn [snd] in *; [|split; assumption].
  destruct (truthy cmd); cbn [negb].
  - pose proof (call_frame env
      (match cmd with Some c => c | None => EmptyString end) w1) as [Ht' Hv'].
    split; congruence.
  - split; assumption.
Qed.

Lemma frame_keeps_windows : forall body : M unit,
  (forall w, view (snd (body w)) = view w) -> keeps_windows body.
Proof.
  intros body H w. unfold pane_windows. rewrite H. reflexivity.
Qed.

Lemma get_file_handler_absent : forall env file_path default w,
  fst (get_file_handler env file_path default w) = Returned None <->
  truthy (media_type env file_path) = false /\ default = None.
Proof.
  intros env file_path default w. unfold get_file_handler, media_type.
  destruct (guess_type env file_path) as [mtype enc]. cbn [fst].
  destruct (truthy mtype) eqn:Hm; cbn [negb].
  - split; [|intros [H _]; discriminate].
    destruct (findmatch env _ file_path) as [tests [handler entry]].
    unfold bind. rewrite for_each_emit_run.
    destruct (truthy handler) eqn:Hh; cbn [negb].
    + cbn. intros H. injection H as H. subst handler. discriminate.
    + destruct (DEFAULT_OPEN env) as [template|]; [|discriminate].
      unfold lift, ret.
      destruct (str_format env template (shlex_quote file_path));
        discriminate.
  - cbn. split.
    + intros H. injection H as H. split; [reflexivity|assumption].
    + intros [_ H]. subst. reflexivity.
Qed.

Lemma get_file_handler_no_type : forall env file_path default w,
  truthy (media_type env file_path) = false ->
  get_file_handler env file_path default w = (Returned default, w).
Proof.
  intros env file_path default w. unfold get_file_handler, media_type.
  destruct (guess_type env file_path) as [mtype enc]. cbn [fst].
  intros ->. reflexivity.
Qed.

(** ** The suspend scope *)

(** C1, as claimed, fails: a scope entered while the terminal echoes its
    input ends with echo off, so the terminal mode after the scope is not
    the mode before it. *)
Lemma symmetry_fails_on_echoing_terminal :
  ~ scope_symmetric (ret tt) echoing_world.
Proof.
  unfold scope_symmetric. rewrite with_suspend_run.
  intros [Hmode _]. cbv in Hmode. discriminate Hmode.
Qed.

(** C1, amended: when the scope is entered in the active state of the UI
    (no echo, cbreak, keypad decoding, hidden cursor, every pane refreshing
    through the [refresh] of its own window) and the body leaves the panes
    on their windows, the terminal mode and the three refresh strategies
    after the scope equal those before it, whether the body returned or
    raised. *)
Theorem scope_symmetric_from_active : forall (body : M unit) (w : World),
  is_active w = true ->
  keeps_windows body ->
  scope_symmetric body w
  /\ fst (suspend.with_suspend body w) = fst (body (suspended w)).
Proof.
  intros body w Hact Hkeep.
  apply is_active_inv in Hact. destruct Hact as [Hmode [Hc [Hm Hs]]].
  unfold scope_symmetric. rewrite with_suspend_run. cbn [fst snd].
  split; [split|reflexivity].
  - rewrite Hmode. reflexivity.
  - specialize (Hkeep (suspended w)).
    unfold pane_windows in Hkeep. cbn in Hkeep.
    injection Hkeep as Hwc Hwm Hws.
    unfold refresh_strategies. rewrite Hc, Hm, Hs.
    unfold resumed, rebind, bound. cbn.
    rewrite Hwc, Hwm, Hws. reflexivity.
Qed.

Lemma scope_symmetric_from_active_witness :
  is_active ui_world = true
  /\ keeps_windows (suspend.call sample_env "boom")
  /\ scope_symmetric (suspend.call sample_env "boom") ui_world
  /\ fst (suspend.with_suspend (suspend.call sample_env "boom") ui_world)
     = Raised OSError.
Proof.
  assert (Hkeep : keeps_windows (suspend.call sample_env "boom")).
  { apply frame_keeps_windows. intros w. apply call_frame. }
  split; [reflexivity|]. split; [exact Hkeep|].
  exact (scope_symmetric_from_active
           (suspend.call sample_env "boom") ui_world eq_refl Hkeep).
Defined.

(** C2: the scope runs [__exit__] once after its body on every path.
    Whatever the body does and whether it returns or raises, the outcome of
    the scope is the outcome of the body, and the world the scope leaves is
    the world at the end of the body with every exit action done on it:
    each pane bound to the [refresh] of its window, echo off, cbreak on,
    keypad decoding on, the cursor hidden, the screen redrawn, and the
    trace of the body followed by the eight exit actions, each of them
    once. *)
Theorem exit_actions_once_on_every_path : forall (body : M unit) (w : World),
  let after_body := body (snd (suspend.__enter__ w)) in
  let exc := match fst after_body with
             | Returned _ => None
             | Raised e => Some e
             end in
  suspend.with_suspend body w = (fst after_body, resumed (snd after_body))
  /\ suspend.__exit__ exc (snd after_body)
     = (Returned tt, resumed (snd after_body))
  /\ terminal_mode (snd (suspend.with_suspend body w))
     = {| tm_echo := false; tm_cbreak := true; tm_keypad := true;
          tm_cursor := 0 |}
  /\ (forall p,
      _refresh (get_pane p (view (snd (suspend.with_suspend body w))))
      = bound (get_pane p (view (snd after_body))) refresh)
  /\ isendwin (term (snd (suspend.with_suspend body w))) = false
  /\ trace (snd (suspend.with_suspend body w))
     = (trace (snd after_body) ++ exit_actions (view (snd after_body)))%list
  /\ NoDup (exit_actions (view (snd after_body))).
Proof.
  intros body w. cbv zeta. rewrite enter_run, exit_run, with_suspend_run.
  cbn [fst snd].
  split; [reflexivity|]. split; [reflexivity|]. split; [reflexivity|].
  split; [intros p; destruct p; reflexivity|].
  split; [reflexivity|]. split; [reflexivity|].
  unfold exit_actions.
  repeat (constructor; [cbn; intuition discriminate|]). constructor.
Qed.

(** C6, as claimed, fails: from the active state of the UI, entry leaves the
    panes on [noutrefresh], the batched strategy, not on the immediate one. *)
Lemma entry_switches_to_batched_not_immediate :
  ~ entry_immediate_exit_batched ui_world.
Proof.
  intros [Hin _]. specialize (Hin Chats).
  rewrite enter_run in Hin. cbv in Hin. discriminate Hin.
Qed.

(** C6, amended: entry binds the refresh strategy of each of the three
    panes to the [noutrefresh] of its window, the batched variant; exit
    binds it to the [refresh] of its window, the immediate variant, and
    calls [doupdate] once. *)
Theorem entry_batched_exit_immediate : forall (w : World) (p : pane_name)
    (exc : option exn),
  let entered := snd (suspend.__enter__ w) in
  let left := snd (suspend.__exit__ exc w) in
  _refresh (get_pane p (view entered)) = bound (get_pane p (view w)) noutrefresh
  /\ strategy_of (_refresh (get_pane p (view entered))) = Batched
  /\ _refresh (get_pane p (view left)) = bound (get_pane p (view w)) refresh
  /\ strategy_of (_refresh (get_pane p (view left))) = Immediate
  /\ filter is_doupdate (trace left)
     = (filter is_doupdate (trace w) ++ [EvDoupdate])%list.
Proof.
  intros w p exc. cbv zeta. rewrite enter_run, exit_run. cbn [snd].
  repeat split; try (destruct p; reflexivity).
  unfold resumed. cbn [trace]. rewrite filter_app. reflexivity.
Qed.

(** C8: running the exit actions again on the state they left gives the
    same terminal mode flags and the same refresh strategies; the curses
    state and the view are those of the first run. *)
Theorem exit_idempotent : forall (exc exc' : option exn) (w : World),
  let once := snd (suspend.__exit__ exc w) in
  let twice := snd (suspend.__exit__ exc' once) in
  terminal_mode twice = terminal_mode once
  /\ refresh_strategies twice = refresh_strategies once
  /\ term twice = term once
  /\ view twice = view once.
Proof.
  intros exc exc' w. cbv zeta. rewrite !exit_run. cbn [snd].
  repeat split.
Qed.

(** ** The payload operations *)

Lemma same_ui_intro : forall w w',
  term w' = term w /\ view w' = view w -> same_ui w w'.
Proof.
  intros w w' [Ht Hv]. unfold same_ui, terminal_mode, refresh_strategies.
  rewrite Ht, Hv. repeat split.
Qed.

(** C9: [call], [run_with_input] and [open_file] leave the curses state and
    the view as they found them, whatever their outcome, so the terminal
    mode and the refresh strategies change in [__enter__] and [__exit__]
    only; each of these two runs through all its actions and returns. *)
Theorem payload_frame : forall (env : Env) (cmd text file_path : string)
    (exc : option exn) (w : World),
  same_ui w (snd (suspend.call env cmd w))
  /\ same_ui w (snd (suspend.run_with_input env cmd text w))
  /\ same_ui w (snd (suspend.open_file env file_path w))
  /\ suspend.__enter__ w = (Returned tt, suspended w)
  /\ suspend.__exit__ exc w = (Returned tt, resumed w).
Proof.
  intros env cmd text file_path exc w.
  split; [apply same_ui_intro, call_frame|].
  split; [apply same_ui_intro, run_with_input_frame|].
  split; [apply same_ui_intro, open_file_frame|].
  split; [apply enter_run|apply exit_run].
Qed.

(** C7, as claimed, fails: a command that holds a null character is
    refused by [subprocess] with [ValueError], and [call] lets the error
    reach its caller. *)
Lemma launch_error_reaches_caller :
  ~ never_surfaced checked_env (String "l" (String "s" (String nul "x")))
      "text" ui_world.
Proof.
  intros [Hcall _]. unfold returns_normally in Hcall.
  vm_compute in Hcall. discriminate Hcall.
Qed.

(** C7, amended: [call] and [run_with_input] hand the command to
    [subprocess] once.  Whatever status the command line ends with, zero
    or not, the status is dropped and they return normally; an error that
    the launch itself raises is not caught and reaches the caller, after
    that one attempt.  In a scope the exit actions follow in both cases and
    the outcome of the scope is the outcome of the payload. *)
Theorem child_status_dropped : forall (env : Env) (cmd : string)
    (input : option string) (w : World),
  let payload := match input with
                 | None => suspend.call env cmd
                 | Some text => suspend.run_with_input env cmd text
                 end in
  let outcome := match run_shell env cmd input with
                 | Returned _ => Returned tt
                 | Raised e => Raised e
                 end in
  payload w = (outcome, logged (EvPopen cmd input) w)
  /\ launches (snd (payload w)) = S (launches w)
  /\ suspend.with_suspend payload w
     = (outcome, resumed (logged (EvPopen cmd input) (suspended w)))
  /\ (forall code,
      run_shell env cmd input = Returned code -> outcome = Returned tt).
Proof.
  intros env cmd input w payload outcome.
  assert (Hp : forall w0,
             payload w0 = (outcome, logged (EvPopen cmd input) w0)).
  { intros w0. subst payload outcome.
    destruct input as [t|];
      unfold suspend.call, suspend.run_with_input, bind, emit, lift, ret;
      cbn [fst snd];
      match goal with
      | |- context [run_shell env cmd ?i] =>
          destruct (run_shell env cmd i); reflexivity
      end. }
  split; [apply Hp|]. split; [|split].
  - rewrite Hp. unfold launches, logged. cbn [snd trace].
    rewrite filter_app, length_app. cbn. lia.
  - rewrite with_suspend_run, Hp. reflexivity.
  - intros code Hcode. subst outcome. rewrite Hcode. reflexivity.
Qed.

Lemma child_status_dropped_witness :
  run_shell sample_env "nosuchcmd" None = Returned 127%Z
  /\ suspend.call sample_env "nosuchcmd" ui_world
     = (Returned tt, logged (EvPopen "nosuchcmd" None) ui_world)
  /\ launches (snd (suspend.call sample_env "nosuchcmd" ui_world)) = 1
  /\ suspend.with_suspend (suspend.call sample_env "nosuchcmd") ui_world
     = (Returned tt,
        resumed (logged (EvPopen "nosuchcmd" None) (suspended ui_world))).
Proof.
  split; [reflexivity|].
  pose (H := child_status_dropped sample_env "nosuchcmd" None ui_world).
  split; [exact (proj1 H)|].
  split; [exact (proj1 (proj2 H))|].
  exact (proj1 (proj2 (proj2 H))).
Defined.

(** ** The resolver *)

Lemma get_file_handler_registered : forall env file_path default w,
  truthy (media_type env file_path) = true ->
  truthy (registry_handler env file_path) = true ->
  fst (get_file_handler env file_path default w)
  = Returned (registry_handler env file_path).
Proof.
  intros env file_path default w.
  unfold get_file_handler, registry_handler, media_type.
  destruct (guess_type env file_path) as [[t|] enc]; cbn [fst];
    [|discriminate].
  intros -> Hh. cbn [negb].
  destruct (findmatch env t file_path) as [tests [handler entry]].
  cbn [fst snd] in Hh. unfold bind. rewrite for_each_emit_run.
  rewrite Hh. reflexivity.
Qed.

Lemma get_file_handler_fallback : forall env file_path default w,
  truthy (media_type env file_path) = true ->
  truthy (registry_handler env file_path) = false ->
  fst (get_file_handler env file_path default w)
  = match DEFAULT_OPEN env with
    | None => Raised AttributeError
    | Some _ => default_opener env file_path
    end.
Proof.
  intros env file_path default w.
  unfold get_file_handler, registry_handler, media_type, default_opener.
  destruct (guess_type env file_path) as [[t|] enc]; cbn [fst];
    [|discriminate].
  intros -> Hh. cbn [negb].
  destruct (findmatch env t file_path) as [tests [handler entry]].
  cbn [fst snd] in Hh. unfold bind. rewrite for_each_emit_run.
  rewrite Hh. cbn [negb].
  destruct (DEFAULT_OPEN env) as [template|]; [|reflexivity].
  unfold lift, ret.
  destruct (str_format env template (shlex_quote file_path)); reflexivity.
Qed.

(** C3, as claimed, fails: for a path without a media type the resolver
    returns absent although the template [less {file_path}] is configured,
    where the fallback order gives the template with the quoted path. *)
Lemma fallback_order_fails_without_media_type :
  ~ fallback_order sample_env "README" ui_world.
Proof.
  unfold fallback_order. cbv. discriminate.
Qed.

(** C3, amended: with a media type and a registered handler the resolver
    returns the handler; with a media type, no registered handler and a
    template configured it returns the template with the shell-quoted path
    in place of [file_path]; without a media type it returns the [default]
    argument of the caller as it is, absent when the caller gave none,
    whatever [DEFAULT_OPEN] holds, and leaves the world unchanged. *)
Theorem resolver_fallback_order : forall (env : Env) (file_path : string)
    (default : option string) (w : World),
  (truthy (media_type env file_path) = true ->
   truthy (registry_handler env file_path) = true ->
   fst (get_file_handler env file_path default w)
   = Returned (registry_handler env file_path))
  /\ (truthy (media_type env file_path) = true ->
      truthy (registry_handler env file_path) = false ->
      forall template, DEFAULT_OPEN env = Some template ->
      fst (get_file_handler env file_path default w)
      = match str_format env template (shlex_quote file_path) with
        | Returned cmd => Returned (Some cmd)
        | Raised e => Raised e
        end)
  /\ (truthy (media_type env file_path) = false ->
      get_file_handler env file_path default w = (Returned default, w)).
Proof.
  intros env file_path default w. split; [|split].
  - apply get_file_handler_registered.
  - intros Hm Hh template Ht.
    rewrite (get_file_handler_fallback env file_path default w Hm Hh).
    unfold default_opener. rewrite Ht. reflexivity.
  - apply get_file_handler_no_type.
Qed.

Lemma resolver_fallback_order_witness :
  fst (get_file_handler sample_env "movie.mp4" None ui_world)
  = Returned (Some "mpv movie.mp4")
  /\ fst (get_file_handler sample_env "my notes.txt" None ui_world)
     = Returned (Some "less 'my notes.txt'")
  /\ get_file_handler sample_env "README" (Some "cat") ui_world
     = (Returned (Some "cat"), ui_world).
Proof.
  split; [|split].
  - exact (proj1 (resolver_fallback_order sample_env "movie.mp4" None
                    ui_world) eq_refl eq_refl).
  - exact (proj1 (proj2 (resolver_fallback_order sample_env "my notes.txt"
                           None ui_world))
             eq_refl eq_refl "less {file_path}" eq_refl).
  - exact (proj2 (proj2 (resolver_fallback_order sample_env "README"
                           (Some "cat") ui_world)) eq_refl).
Defined.

(** C4, as claimed, fails: for a path without a media type the resolver
    returns absent while a default opener template is configured, so
    absent is returned although a handler can be found. *)
Lemma absent_although_template_configured :
  ~ never_raises_absent_only_on_miss sample_env "README" ui_world.
Proof.
  intros [_ H]. destruct (H eq_refl) as [_ Hnone]. discriminate Hnone.
Qed.

(** C4, amended: when [DEFAULT_OPEN] holds a template that [format] accepts
    for the quoted path, the resolver does not raise; and, whether or not
    [DEFAULT_OPEN] is configured, it returns absent exactly when the path
    has no media type and the caller gave no [default]. *)
Theorem resolver_returns : forall (env : Env) (file_path : string)
    (default : option string) (w : World),
  (forall template cmd,
      DEFAULT_OPEN env = Some template ->
      str_format env template (shlex_quote file_path) = Returned cmd ->
      exists r, fst (get_file_handler env file_path default w) = Returned r)
  /\ (fst (get_file_handler env file_path default w) = Returned None <->
      truthy (media_type env file_path) = false /\ default = None).
Proof.
  intros env file_path default w.
  split; [|apply get_file_handler_absent].
  intros template cmd Ht Hf.
  destruct (truthy (media_type env file_path)) eqn:Hm.
  - destruct (truthy (registry_handler env file_path)) eqn:Hh.
    + eexists. apply get_file_handler_registered; assumption.
    + exists (Some cmd).
      rewrite (get_file_handler_fallback env file_path default w Hm Hh).
      unfold default_opener. rewrite Ht, Hf. reflexivity.
  - exists default. rewrite get_file_handler_no_type by assumption.
    reflexivity.
Qed.

Lemma resolver_returns_witness :
  DEFAULT_OPEN sample_env = Some "less {file_path}"
  /\ str_format sample_env "less {file_path}" (shlex_quote "notes.txt")
     = Returned "less notes.txt"
  /\ (exists r,
        fst (get_file_handler sample_env "notes.txt" None ui_world)
        = Returned r)
  /\ fst (get_file_handler (with_DEFAULT_OPEN None sample_env) "README" None
            ui_world)
     = Returned None
  /\ fst (get_file_handler (with_DEFAULT_OPEN None sample_env) "notes.txt"
            None ui_world)
     <> Returned None.
Proof.
  split; [reflexivity|]. split; [reflexivity|].
  split; [exact (proj1 (resolver_returns sample_env "notes.txt" None
                          ui_world)
                   "less {file_path}" "less notes.txt" eq_refl eq_refl)|].
  split.
  - exact (proj2 (proj2 (resolver_returns (with_DEFAULT_OPEN None sample_env)
                           "README" None ui_world))
             (conj eq_refl eq_refl)).
  - intros H.
    destruct (proj1 (proj2 (resolver_returns
                              (with_DEFAULT_OPEN None sample_env)
                              "notes.txt" None ui_world)) H) as [Hm _].
    discriminate Hm.
Defined.

(** ** open_file on a path without handler *)

(** C5: when the resolver yields absent for the path, [open_file] returns
    normally and leaves the whole world as it was: no process is launched
    and neither the terminal mode nor a refresh strategy changes; a scope
    around it does what a scope with an empty body does. *)
Theorem open_file_noop_on_miss : forall (env : Env) (file_path : string)
    (w : World),
  fst (get_file_handler env file_path None w) = Returned None ->
  suspend.open_file env file_path w = (Returned tt, w)
  /\ launches (snd (suspend.open_file env file_path w)) = launches w
  /\ same_ui w (snd (suspend.open_file env file_path w))
  /\ suspend.with_suspend (suspend.open_file env file_path) w
     = suspend.with_suspend (ret tt) w.
Proof.
  intros env file_path w Habsent.
  apply get_file_handler_absent in Habsent. destruct Habsent as [Hm _].
  assert (Hrun : forall w0,
             suspend.open_file env file_path w0 = (Returned tt, w0)).
  { intros w0. unfold suspend.open_file, bind.
    rewrite get_file_handler_no_type by assumption. reflexivity. }
  rewrite !with_suspend_run, !Hrun. cbn [fst snd].
  repeat split.
Qed.

Lemma open_file_noop_on_miss_witness :
  fst (get_file_handler sample_env "README" None ui_world) = Returned None
  /\ suspend.open_file sample_env "README" ui_world = (Returned tt, ui_world)
  /\ launches (snd (suspend.open_file sample_env "README" ui_world))
     = launches ui_world
  /\ same_ui ui_world (snd (suspend.open_file sample_env "README" ui_world))
  /\ suspend.with_suspend (suspend.open_file sample_env "README") ui_world
     = suspend.with_suspend (ret tt) ui_world.
Proof.
  split; [reflexivity|].
  exact (open_file_noop_on_miss sample_env "README" ui_world eq_refl).
Defined.

(** C10: for a path whose media type cannot be guessed the resolver returns
    its [default] argument as it is, neither formatted nor quoted, so
    [open_file], which passes none, does nothing whatever template
    [DEFAULT_OPEN] holds; and the result of the resolver depends on
    [DEFAULT_OPEN] only when a media type is guessed and the registry has
    no handler for it. *)
Theorem default_template_reachability : forall (env : Env)
    (file_path : string) (w : World),
  (truthy (media_type env file_path) = false ->
   (forall default,
       get_file_handler env file_path default w = (Returned default, w))
   /\ (forall template,
       suspend.open_file (with_DEFAULT_OPEN template env) file_path w
       = (Returned tt, w)))
  /\ (truthy (media_type env file_path) = false
      \/ truthy (registry_handler env file_path) = true ->
      forall template template' default,
        fst (get_file_handler (with_DEFAULT_OPEN template env)
               file_path default w)
        = fst (get_file_handler (with_DEFAULT_OPEN template' env)
                 file_path default w)).
Proof.
  intros env file_path w. split.
  - intros Hm. split.
    + intros default. apply get_file_handler_no_type. assumption.
    + intros template. unfold suspend.open_file, bind.
      rewrite get_file_handler_no_type by assumption. reflexivity.
  - intros Hcase template template' default.
    destruct (truthy (media_type env file_path)) eqn:Hm.
    + destruct Hcase as [Hcase|Hh]; [discriminate|].
      rewrite !get_file_handler_registered by assumption. reflexivity.
    + rewrite !get_file_handler_no_type by assumption. reflexivity.
Qed.

Lemma default_template_reachability_witness :
  truthy (media_type sample_env "README") = false
  /\ get_file_handler sample_env "README" (Some "less {file_path}") ui_world
     = (Returned (Some "less {file_path}"), ui_world)
  /\ suspend.open_file
       (with_DEFAULT_OPEN (Some "xdg-open {file_path}") sample_env)
       "README" ui_world
     = (Returned tt, ui_world)
  /\ fst (get_file_handler (with_DEFAULT_OPEN (Some "a") sample_env)
            "movie.mp4" None ui_world)
     = fst (get_file_handler (with_DEFAULT_OPEN None sample_env)
              "movie.mp4" None ui_world).
Proof.
  split; [reflexivity|].
  pose (H := proj1 (default_template_reachability sample_env "README"
                      ui_world) eq_refl).
  split; [exact (proj1 H (Some "less {file_path}"))|].
  split; [exact (proj2 H (Some "xdg-open {file_path}"))|].
  exact (proj2 (default_template_reachability sample_env "movie.mp4"
                  ui_world) (or_intror eq_refl) (Some "a") None None).
Defined.

(** ** Scenarios *)

Example resolve_notes :
  fst (get_file_handler sample_env "notes.txt" None ui_world)
  = Returned (Some "less notes.txt").
Proof. reflexivity. Qed.

Example resolve_movie :
  fst (get_file_handler sample_env "movie.mp4" None ui_world)
  = Returned (Some "mpv movie.mp4").
Proof. reflexivity. Qed.

Example resolve_without_template_raises :
  fst (get_file_handler (with_DEFAULT_OPEN None sample_env) "notes.txt" None
         ui_world)
  = Raised AttributeError.
Proof. reflexivity. Qed.

Example resolve_quotes_the_path :
  shlex_quote "it's" = String squote ("it'" ++ String dquote
                         ("'" ++ String dquote "'s'")).
Proof. reflexivity. Qed.

Example scope_around_failing_launch :
  let end_state :=
    suspend.with_suspend (suspend.call sample_env "boom") ui_world in
  fst end_state = Raised OSError
  /\ terminal_mode (snd end_state) = terminal_mode ui_world
  /\ is_active (snd end_state) = true
  /\ launches (snd end_state) = 1.
Proof. cbv. repeat split. Qed.

Example scope_opens_movie :
  trace (snd (suspend.with_suspend
                (suspend.open_file sample_env "movie.mp4") ui_world))
  = (enter_actions ui_view ++ [EvPopen "mpv movie.mp4" None]
     ++ exit_actions ui_view)%list.
Proof. reflexivity. Qed.

(** ** Quoting and splitting *)

Lemma append_empty_r : forall s : string, s ++ EmptyString = s.
Proof.
  induction s as [|c s IH]; cbn; [reflexivity|]. rewrite IH. reflexivity.
Qed.

Lemma append_snoc : forall (s : string) (c : ascii) (t : string),
  (s ++ String c EmptyString) ++ t = s ++ String c t.
Proof.
  induction s as [|d s IH]; intros c t; cbn; [reflexivity|].
  rewrite IH. reflexivity.
Qed.

Lemma nonempty_snoc : forall (s : string) (c : ascii),
  nonempty (s ++ String c EmptyString) = true.
Proof. intros [|d s] c; reflexivity. Qed.

Lemma safe_char_plain : forall c,
  safe_char c = true ->
  lex_whitespace c = false /\ lex_quote c = false /\ lex_escape c = false.
Proof.
  intros [b0 b1 b2 b3 b4 b5 b6 b7].
  destruct b0, b1, b2, b3, b4, b5, b6, b7; vm_compute; intros H;
    first [discriminate H | repeat split].
Qed.

Lemma lex_word_safe : forall (s token : string) (out : list string)
    (quoted : bool),
  find_unsafe s = false ->
  nonempty token = true ->
  lex LexWord quoted token out s = Returned (out ++ [(token ++ s)%string])%list.
Proof.
  induction s as [|c s IH]; intros token out quoted Hsafe Htok.
  - cbn. rewrite Htok, append_empty_r. reflexivity.
  - cbn in Hsafe. apply orb_false_iff in Hsafe. destruct Hsafe as [Hc Hs].
    apply negb_false_iff in Hc.
    destruct (safe_char_plain c Hc) as [Hw [Hq He]].
    cbn [lex]. rewrite Hw, Hq, He.
    rewrite IH by (assumption || apply nonempty_snoc).
    rewrite append_snoc. reflexivity.
Qed.

Lemma lex_reopen_quote : forall (quoted : bool) (token : string)
    (out : list string) (rest : string),
  lex (LexQuote squote) quoted token out
    (String squote (String dquote (String squote (String dquote
       (String squote rest)))))
  = lex (LexQuote squote) true (token ++ String squote EmptyString) out rest.
Proof.
  intros quoted token out rest. cbn [lex].
  change (Ascii.eqb squote squote) with true.
  change (Ascii.eqb dquote dquote) with true.
  change (Ascii.eqb squote dquote) with false.
  change (lex_whitespace dquote) with false.
  change (lex_whitespace squote) with false.
  change (lex_quote dquote) with true.
  change (lex_quote squote) with true.
  change (lex_escape squote) with false.
  reflexivity.
Qed.

Lemma lex_quoted_body : forall (s token : string) (out : list string)
    (quoted : bool),
  lex (LexQuote squote) quoted token out (replace_squote s ++ "'")
  = Returned (out ++ [(token ++ s)%string])%list.
Proof.
  induction s as [|c s IH]; intros token out quoted.
  - cbn. rewrite orb_true_r, append_empty_r. reflexivity.
  - cbn [replace_squote]. destruct (Ascii.eqb c squote) eqn:Hc.
    + apply Ascii.eqb_eq in Hc. subst c.
      cbn [append]. rewrite lex_reopen_quote, IH, append_snoc. reflexivity.
    + cbn [append lex]. rewrite Hc.
      replace (lex_escape c && Ascii.eqb squote dquote) with false
        by (rewrite andb_comm; reflexivity).
      rewrite IH, append_snoc. reflexivity.
Qed.

(** X1: what [shlex.quote] returns reads back, through [shlex.split], as
    the one word that was quoted, whatever characters it holds. *)
Theorem split_quote_round_trip : forall s : string,
  shlex_split (shlex_quote s) = Returned [s].
Proof.
  intros [|c s]; [reflexivity|].
  unfold shlex_quote, shlex_split.
  destruct (find_unsafe (String c s)) eqn:Hsafe.
  - cbn [lex lex_whitespace lex_escape lex_quote].
    change (lex_whitespace squote) with false.
    change (lex_escape squote) with false.
    change (lex_quote squote) with true. cbn iota.
    rewrite lex_quoted_body. reflexivity.
  - cbn in Hsafe. apply orb_false_iff in Hsafe. destruct Hsafe as [Hc Hs].
    apply negb_false_iff in Hc.
    destruct (safe_char_plain c Hc) as [Hw [Hq He]].
    cbn [lex]. rewrite Hw, Hq, He.
    rewrite lex_word_safe by (assumption || reflexivity). reflexivity.
Qed.

(** ** The command lines of ffprobe *)

Lemma lex_app : forall (p rest : string) (st : lex_state) (quoted : bool)
    (token : string) (out : list string),
  lex st quoted token out (p ++ rest)
  = let '(st', quoted', token', out') := lex_run st quoted token out p in
    lex st' quoted' token' out' rest.
Proof.
  induction p as [|c p IH]; intros rest st quoted token out;
    [reflexivity|].
  cbn [append lex lex_run].
  destruct st as [| |q|[q|]].
  - destruct (lex_whitespace c); [destruct (nonempty token || quoted)|];
      try apply IH.
    destruct (lex_escape c); [apply IH|].
    destruct (lex_quote c); apply IH.
  - destruct (lex_whitespace c); [destruct (nonempty token || quoted)|];
      try apply IH.
    destruct (lex_quote c); [apply IH|].
    destruct (lex_escape c); apply IH.
  - destruct (Ascii.eqb c q); [apply IH|].
    destruct (lex_escape c && Ascii.eqb q dquote); apply IH.
  - apply IH.
  - apply IH.
Qed.

(** Inside single quotes every character but the single quote is taken
    as it is. *)
Lemma lex_run_in_squote : forall (p token : string) (out : list string)
    (quoted : bool),
  mem_char squote p = false ->
  lex_run (LexQuote squote) quoted token out p
  = (LexQuote squote, quoted || nonempty p, (token ++ p)%string, out).
Proof.
  induction p as [|c p IH]; intros token out quoted Hp.
  - cbn. rewrite orb_false_r, append_empty_r. reflexivity.
  - cbn [mem_char] in Hp. apply orb_false_iff in Hp.
    destruct Hp as [Hc Hp].
    cbn [lex_run]. rewrite Ascii.eqb_sym in Hc. rewrite Hc.
    replace (lex_escape c && Ascii.eqb squote dquote) with false
      by (rewrite andb_comm; reflexivity).
    rewrite IH by assumption. rewrite append_snoc.
    cbn [nonempty]. rewrite orb_true_r. reflexivity.
Qed.

Lemma format_cmd_tail : forall (quoted : bool) (token : string)
    (out : list string),
  lex (LexQuote squote) quoted token out "' -show_format"
  = Returned ((out ++ [token]) ++ ["-show_format"])%list.
Proof. intros quoted [|c token] out; vm_compute; reflexivity. Qed.

Lemma stream_cmd_tail : forall (quoted : bool) (token : string)
    (out : list string),
  lex (LexQuote squote) quoted token out "'"
  = Returned (out ++ [token])%list.
Proof. intros quoted [|c token] out; vm_compute; reflexivity. Qed.

Lemma split_format_cmd : forall file_path,
  mem_char squote file_path = false ->
  shlex_split (ffprobe_format_cmd file_path)
  = Returned ["ffprobe"; "-v"; "error"; "-i"; file_path; "-show_format"].
Proof.
  intros file_path Hq. unfold shlex_split, ffprobe_format_cmd.
  rewrite (lex_app "ffprobe -v error -i '").
  change (lex_run LexSpace false EmptyString [] "ffprobe -v error -i '")
    with (LexQuote squote, false, EmptyString,
          ["ffprobe"; "-v"; "error"; "-i"]).
  cbv iota beta. rewrite lex_app, lex_run_in_squote by assumption.
  cbv iota beta. rewrite format_cmd_tail. reflexivity.
Qed.

Lemma split_stream_cmd : forall file_path,
  mem_char squote file_path = false ->
  shlex_split (ffprobe_stream_cmd file_path)
  = Returned ["ffprobe"; "-v"; "error"; "-show_entries";
              "stream=width,height"; "-of"; "default=noprint_wrappers=1";
              file_path].
Proof.
  intros file_path Hq. unfold shlex_split, ffprobe_stream_cmd.
  rewrite (lex_app
    "ffprobe -v error -show_entries stream=width,height -of default=noprint_wrappers=1 '").
  match goal with
  | |- context [lex_run ?a ?b ?c ?d ?e] =>
      let r := eval vm_compute in (lex_run a b c d e) in
      change (lex_run a b c d e) with r
  end.
  cbv iota beta. rewrite lex_app, lex_run_in_squote by assumption.
  cbv iota beta. rewrite stream_cmd_tail. reflexivity.
Qed.

(** X2: for a path without single quote, [get_duration] and
    [get_video_resolution] run ffprobe with the path as one argument,
    whatever else the path holds, and read the lines it writes. *)
Theorem probes_pass_plain_path : forall
    (check_output : list string -> result (list string))
    (int_of_float py_int : string -> result Z) (file_path : string),
  mem_char squote file_path = false ->
  get_duration check_output int_of_float file_path
  = match check_output ["ffprobe"; "-v"; "error"; "-i"; file_path;
                        "-show_format"] with
    | Raised e => Raised e
    | Returned stdout => duration_of_lines int_of_float stdout
    end
  /\ get_video_resolution check_output py_int file_path
     = match check_output ["ffprobe"; "-v"; "error"; "-show_entries";
                           "stream=width,height"; "-of";
                           "default=noprint_wrappers=1"; file_path] with
       | Raised e => Raised e
       | Returned lines => resolution_of_lines py_int lines
       end.
Proof.
  intros check_output int_of_float py_int file_path Hq.
  unfold get_duration, get_video_resolution.
  rewrite split_format_cmd, split_stream_cmd by assumption.
  split; reflexivity.
Qed.

Lemma append_assoc : forall s t u : string, (s ++ t) ++ u = s ++ (t ++ u).
Proof.
  induction s as [|c s IH]; intros t u; cbn; [reflexivity|].
  rewrite IH. reflexivity.
Qed.

(** Outside quotations, a text without quote and without backslash leaves
    the lexer outside quotations. *)
Lemma lex_run_unquoted : forall (p : string) (st : lex_state) (quoted : bool)
    (token : string) (out : list string),
  mem_char squote p = false ->
  mem_char dquote p = false ->
  mem_char backslash p = false ->
  st = LexSpace \/ st = LexWord ->
  lex_state_of (lex_run st quoted token out p) = LexSpace
  \/ lex_state_of (lex_run st quoted token out p) = LexWord.
Proof.
  induction p as [|c p IH]; intros st quoted token out Hs Hd Hb Hst.
  - exact Hst.
  - cbn [mem_char] in Hs, Hd, Hb.
    apply orb_false_iff in Hs. destruct Hs as [Hs Hs'].
    apply orb_false_iff in Hd. destruct Hd as [Hd Hd'].
    apply orb_false_iff in Hb. destruct Hb as [Hb Hb'].
    rewrite Ascii.eqb_sym in Hs, Hd, Hb.
    assert (Hq : lex_quote c = false) by (unfold lex_quote; rewrite Hs, Hd;
                                          reflexivity).
    assert (He : lex_escape c = false) by exact Hb.
    destruct Hst as [-> | ->]; cbn [lex_run]; rewrite Hq, He;
      destruct (lex_whitespace c); try destruct (nonempty token || quoted);
      apply IH; auto.
Qed.

Lemma lex_unclosed_format : forall (st : lex_state) (quoted : bool)
    (token : string) (out : list string),
  st = LexSpace \/ st = LexWord ->
  lex st quoted token out "' -show_format" = Raised ValueError.
Proof. intros st quoted token out [-> | ->]; vm_compute; reflexivity. Qed.

Lemma lex_unclosed_stream : forall (st : lex_state) (quoted : bool)
    (token : string) (out : list string),
  st = LexSpace \/ st = LexWord ->
  lex st quoted token out "'" = Raised ValueError.
Proof. intros st quoted token out [-> | ->]; vm_compute; reflexivity. Qed.

Lemma lex_after_quote : forall (p1 p2 tail : string) (out : list string),
  mem_char squote p1 = false ->
  mem_char squote p2 = false ->
  mem_char dquote p2 = false ->
  mem_char backslash p2 = false ->
  (forall st quoted token out',
      st = LexSpace \/ st = LexWord ->
      lex st quoted token out' tail = Raised ValueError) ->
  lex (LexQuote squote) false EmptyString out
    ((p1 ++ String squote p2) ++ tail)
  = Raised ValueError.
Proof.
  intros p1 p2 tail out H1 Hs Hd Hb Htail.
  rewrite append_assoc, lex_app, lex_run_in_squote by assumption.
  cbv iota beta. cbn [append lex].
  change (Ascii.eqb squote squote) with true. cbv iota.
  rewrite lex_app.
  pose proof (lex_run_unquoted p2 LexWord true p1 out
                Hs Hd Hb (or_intror eq_refl)) as Hst.
  destruct (lex_run LexWord true p1 out p2) as [[[st' q'] t'] o'].
  apply Htail. exact Hst.
Qed.

(** X3: for a path with one single quote, followed by neither a double
    quote nor a backslash, [get_duration] and [get_video_resolution] raise
    [ValueError] when they split their command line and run no process: the
    result is the same for every behaviour of ffprobe. *)
Theorem probes_reject_quote_in_path : forall
    (check_output : list string -> result (list string))
    (int_of_float py_int : string -> result Z) (before after : string),
  mem_char squote before = false ->
  mem_char squote after = false ->
  mem_char dquote after = false ->
  mem_char backslash after = false ->
  get_duration check_output int_of_float (before ++ String squote after)
  = Raised ValueError
  /\ get_video_resolution check_output py_int (before ++ String squote after)
     = Raised ValueError.
Proof.
  intros check_output int_of_float py_int before after H1 Hs Hd Hb.
  unfold get_duration, get_video_resolution, shlex_split,
    ffprobe_format_cmd, ffprobe_stream_cmd.
  split.
  - rewrite (lex_app "ffprobe -v error -i '").
    change (lex_run LexSpace false EmptyString [] "ffprobe -v error -i '")
      with (LexQuote squote, false, EmptyString,
            ["ffprobe"; "-v"; "error"; "-i"]).
    cbv iota beta.
    rewrite (lex_after_quote before after "' -show_format")
      by (assumption || apply lex_unclosed_format).
    reflexivity.
  - rewrite (lex_app
      "ffprobe -v error -show_entries stream=width,height -of default=noprint_wrappers=1 '").
    match goal with
    | |- context [lex_run ?a ?b ?c ?d ?e] =>
        let r := eval vm_compute in (lex_run a b c d e) in
        change (lex_run a b c d e) with r
    end.
    cbv iota beta.
    rewrite (lex_after_quote before after "'")
      by (assumption || apply lex_unclosed_stream).
    reflexivity.
Qed.

(** ** The lines ffprobe writes *)

Lemma split_on_without_sep : forall (sep : ascii) (s : string),
  mem_char sep s = false -> split_on sep s = [s].
Proof.
  induction s as [|c s IH]; intros Hs; [reflexivity|].
  cbn [mem_char] in Hs. apply orb_false_iff in Hs. destruct Hs as [Hc Hs].
  cbn [split_on]. rewrite Ascii.eqb_sym in Hc. rewrite Hc, IH by assumption.
  reflexivity.
Qed.

Lemma split_on_field : forall (sep : ascii) (k rest : string),
  mem_char sep k = false ->
  split_on sep (k ++ String sep rest) = k :: split_on sep rest.
Proof.
  induction k as [|c k IH]; intros rest Hk.
  - cbn. rewrite Ascii.eqb_refl. reflexivity.
  - cbn [mem_char] in Hk. apply orb_false_iff in Hk. destruct Hk as [Hc Hk].
    cbn [append split_on]. rewrite Ascii.eqb_sym in Hc.
    rewrite Hc, IH by assumption. reflexivity.
Qed.

Lemma split_on_key_value : forall (sep : ascii) (k v : string),
  mem_char sep k = false ->
  mem_char sep v = false ->
  split_on sep (k ++ String sep v) = [k; v].
Proof.
  intros sep k v Hk Hv.
  rewrite split_on_field, split_on_without_sep by assumption. reflexivity.
Qed.

Lemma split_on_with_sep : forall (sep : ascii) (s : string),
  mem_char sep s = true ->
  exists k v fields, split_on sep s = k :: v :: fields.
Proof.
  induction s as [|c s IH]; intros Hs; [discriminate|].
  cbn [mem_char] in Hs. cbn [split_on]. rewrite (Ascii.eqb_sym c sep).
  destruct (Ascii.eqb sep c); cbn [orb] in Hs.
  - destruct s as [|d s]; cbn [split_on].
    + exists EmptyString, EmptyString, []. reflexivity.
    + destruct (Ascii.eqb d sep); [eauto|].
      destruct (split_on sep s); eauto.
  - destruct (IH Hs) as [k [v [fields ->]]]. eauto.
Qed.

Lemma info_of_lines_bad_line : forall (lines : list string) (info : dict)
    (line : string),
  In line lines ->
  mem_char "=" line = false ->
  info_of_lines lines info = Raised IndexError.
Proof.
  induction lines as [|l lines IH]; intros info line Hin Hbad; [easy|].
  cbn [info_of_lines].
  destruct (split_on "=" l) as [|k [|v fields]] eqn:Hl; try reflexivity.
  destruct Hin as [-> | Hin].
  - rewrite split_on_without_sep in Hl by assumption. discriminate Hl.
  - apply (IH _ line); assumption.
Qed.

Lemma info_of_lines_app : forall (a b : list string) (info : dict),
  info_of_lines (a ++ b) info
  = match info_of_lines a info with
    | Returned d => info_of_lines b d
    | Raised e => Raised e
    end.
Proof.
  induction a as [|l a IH]; intros b info; [reflexivity|].
  cbn [app info_of_lines].
  destruct (split_on "=" l) as [|k [|v fields]]; try reflexivity.
  apply IH.
Qed.

Lemma info_of_lines_returns : forall (lines : list string) (info : dict),
  Forall (fun line => mem_char "=" line = true) lines ->
  exists d, info_of_lines lines info = Returned d.
Proof.
  induction lines as [|l lines IH]; intros info Hall.
  - exists info. reflexivity.
  - inversion Hall as [|? ? Hl Hrest]; subst.
    destruct (split_on_with_sep "=" l Hl) as [k [v [fields Hk]]].
    cbn [info_of_lines]. rewrite Hk. apply IH. assumption.
Qed.

Lemma dict_get_set_same : forall (k v : string) (d : dict),
  dict_get k (dict_set k v d) = Some v.
Proof.
  induction d as [|[k' v'] d IH]; cbn.
  - rewrite String.eqb_refl. reflexivity.
  - destruct (String.eqb k k') eqn:Hk; cbn; rewrite Hk;
      [reflexivity|assumption].
Qed.

Lemma dict_get_set_other : forall (k k' v : string) (d : dict),
  String.eqb k k' = false ->
  dict_get k (dict_set k' v d) = dict_get k d.
Proof.
  induction d as [|[k0 v0] d IH]; intros Hk; cbn.
  - rewrite Hk. reflexivity.
  - destruct (String.eqb k' k0) eqn:Hk0; cbn.
    + apply String.eqb_eq in Hk0. subst k0. rewrite Hk. reflexivity.
    + destruct (String.eqb k k0); [reflexivity|]. apply IH. assumption.
Qed.

Lemma find_first : forall (A : Type) (f : A -> bool) (pre post : list A)
    (x : A),
  Forall (fun y => f y = false) pre ->
  f x = true ->
  find f (pre ++ x :: post) = Some x.
Proof.
  induction pre as [|y pre IH]; intros post x Hpre Hx; cbn.
  - rewrite Hx. reflexivity.
  - inversion Hpre as [|? ? Hy Hrest]; subst. rewrite Hy. apply IH;
      assumption.
Qed.

(** X4: when a line that ffprobe wrote has no equals sign, a blank line
    for one, [get_video_resolution] raises [IndexError], whatever the other
    lines hold. *)
Theorem resolution_needs_equals_sign : forall
    (check_output : list string -> result (list string))
    (py_int : string -> result Z) (file_path : string)
    (lines : list string) (line : string),
  mem_char squote file_path = false ->
  check_output ["ffprobe"; "-v"; "error"; "-show_entries";
                "stream=width,height"; "-of"; "default=noprint_wrappers=1";
                file_path] = Returned lines ->
  In line lines ->
  mem_char "=" line = false ->
  get_video_resolution check_output py_int file_path = Raised IndexError.
Proof.
  intros check_output py_int file_path lines line Hq Hout Hin Hbad.
  unfold get_video_resolution. rewrite split_stream_cmd by assumption.
  rewrite Hout. unfold resolution_of_lines.
  rewrite (info_of_lines_bad_line lines [] line) by assumption.
  reflexivity.
Qed.

Lemma split_on_cons : forall (sep : ascii) (s : string),
  split_on sep s = first_field sep s :: tl (split_on sep s).
Proof.
  intros sep s. unfold first_field.
  destruct s as [|c s]; [reflexivity|]. cbn [split_on].
  destruct (Ascii.eqb c sep); [reflexivity|].
  destruct (split_on sep s); reflexivity.
Qed.

(** X5: when the lines of ffprobe end with a line that begins with
    [width=] and a line that begins with [height=], what follows the equals
    sign in each, up to the next equals sign if there is one, is converted
    and returned, width first, whatever widths and heights the lines before
    them gave: for a file with several streams the last one decides. *)
Theorem resolution_of_last_stream : forall
    (check_output : list string -> result (list string))
    (py_int : string -> result Z) (file_path : string)
    (earlier : list string) (w h : string),
  mem_char squote file_path = false ->
  Forall (fun line => mem_char "=" line = true) earlier ->
  check_output ["ffprobe"; "-v"; "error"; "-show_entries";
                "stream=width,height"; "-of"; "default=noprint_wrappers=1";
                file_path]
  = Returned (earlier ++ [("width=" ++ w)%string;
                          ("height=" ++ h)%string])%list ->
  get_video_resolution check_output py_int file_path
  = match py_int (first_field "=" w) with
    | Raised e => Raised e
    | Returned width =>
        match py_int (first_field "=" h) with
        | Raised e => Raised e
        | Returned height => Returned (width, height)
        end
    end.
Proof.
  intros check_output py_int file_path earlier w h Hq Hall Hout.
  unfold get_video_resolution. rewrite split_stream_cmd by assumption.
  rewrite Hout. unfold resolution_of_lines.
  rewrite info_of_lines_app.
  destruct (info_of_lines_returns earlier [] Hall) as [d ->].
  cbn [info_of_lines].
  change ("width=" ++ w)%string with ("width" ++ String "=" w)%string.
  change ("height=" ++ h)%string with ("height" ++ String "=" h)%string.
  rewrite (split_on_field "=" "width" w) by reflexivity.
  rewrite (split_on_field "=" "height" h) by reflexivity.
  rewrite (split_on_cons "=" w), (split_on_cons "=" h).
  rewrite dict_get_set_other, !dict_get_set_same by reflexivity.
  reflexivity.
Qed.

Lemma split_on_length : forall (sep : ascii) (s : string),
  length (split_on sep s) = S (count_char sep s).
Proof.
  induction s as [|c s IH]; [reflexivity|].
  cbn [split_on count_char]. destruct (Ascii.eqb c sep).
  - cbn [length]. rewrite IH. reflexivity.
  - destruct (split_on sep s); cbn [length] in *; lia.
Qed.

Lemma split_on_one_inv : forall (sep : ascii) (s b : string),
  split_on sep s = [b] -> s = b.
Proof.
  induction s as [|c s IH]; intros b Hs.
  - cbn in Hs. congruence.
  - cbn [split_on] in Hs. destruct (Ascii.eqb c sep).
    + pose proof (split_on_length sep s) as Hl.
      injection Hs as _ Hs. rewrite Hs in Hl. discriminate Hl.
    + destruct (split_on sep s) as [|f fs] eqn:Hf.
      * pose proof (split_on_length sep s) as Hl. rewrite Hf in Hl.
        discriminate Hl.
      * injection Hs as <- ->. rewrite (IH f eq_refl). reflexivity.
Qed.

Lemma split_on_two_inv : forall (sep : ascii) (s a b : string),
  split_on sep s = [a; b] -> s = (a ++ String sep b)%string.
Proof.
  induction s as [|c s IH]; intros a b Hs.
  - discriminate Hs.
  - cbn [split_on] in Hs. destruct (Ascii.eqb c sep) eqn:Hc.
    + apply Ascii.eqb_eq in Hc. subst c.
      injection Hs as <- Hs. apply split_on_one_inv in Hs. subst s.
      reflexivity.
    + destruct (split_on sep s) as [|f fs] eqn:Hf; [discriminate Hs|].
      injection Hs as <- ->. rewrite (IH f b eq_refl). reflexivity.
Qed.

(** X6: [get_duration] reads the first line that holds the word duration
    and no line after it, the line of the real duration included.  When
    that line has one equals sign, the text after the sign is converted;
    when it has none or several, [ValueError] is raised. *)
Theorem duration_of_first_mention : forall
    (check_output : list string -> result (list string))
    (int_of_float : string -> result Z) (file_path : string)
    (pre post : list string) (line : string),
  mem_char squote file_path = false ->
  Forall (fun l => contains "duration" l = false) pre ->
  contains "duration" line = true ->
  check_output ["ffprobe"; "-v"; "error"; "-i"; file_path; "-show_format"]
  = Returned (pre ++ line :: post)%list ->
  (count_char "=" line = 1 ->
   exists k v,
     line = (k ++ String "=" v)%string
     /\ get_duration check_output int_of_float file_path = int_of_float v)
  /\ (count_char "=" line <> 1 ->
      get_duration check_output int_of_float file_path = Raised ValueError).
Proof.
  intros check_output int_of_float file_path pre post line Hq Hpre Hline
    Hout.
  unfold get_duration. rewrite split_format_cmd by assumption.
  rewrite Hout. unfold duration_of_lines.
  rewrite (find_first _ _ pre post _ Hpre Hline).
  replace (nonempty line) with true
    by (destruct line; [discriminate Hline|reflexivity]).
  pose proof (split_on_length "=" line) as Hlen.
  split.
  - intros Hone. rewrite Hone in Hlen.
    destruct (split_on "=" line) as [|k [|v [|x fields]]] eqn:Hsplit;
      try discriminate Hlen.
    exists k, v. split; [|reflexivity].
    apply split_on_two_inv. exact Hsplit.
  - intros Hnot.
    destruct (split_on "=" line) as [|k [|v [|x fields]]] eqn:Hsplit;
      try reflexivity.
    cbn [length] in Hlen. congruence.
Qed.

(** ** The probes on the sample ffprobe *)

Lemma probes_pass_plain_path_witness :
  mem_char squote "my film.mp4" = false
  /\ get_duration sample_check_output sample_int_of_float "my film.mp4"
     = Returned 12%Z
  /\ get_video_resolution sample_check_output sample_py_int "my film.mp4"
     = Returned (1920%Z, 1080%Z).
Proof.
  split; [reflexivity|].
  exact (probes_pass_plain_path sample_check_output sample_int_of_float
           sample_py_int "my film.mp4" eq_refl).
Defined.

Lemma probes_reject_quote_in_path_witness :
  mem_char squote "it" = false
  /\ mem_char squote "s.mp4" = false
  /\ mem_char dquote "s.mp4" = false
  /\ mem_char backslash "s.mp4" = false
  /\ get_duration sample_check_output sample_int_of_float "it's.mp4"
     = Raised ValueError
  /\ get_video_resolution sample_check_output sample_py_int "it's.mp4"
     = Raised ValueError.
Proof.
  do 4 (split; [reflexivity|]).
  exact (probes_reject_quote_in_path sample_check_output sample_int_of_float
           sample_py_int "it" "s.mp4" eq_refl eq_refl eq_refl eq_refl).
Defined.

Lemma resolution_needs_equals_sign_witness :
  mem_char squote "blank.mp4" = false
  /\ In EmptyString ["width=640"; EmptyString; "height=360"]
  /\ get_video_resolution sample_check_output sample_py_int "blank.mp4"
     = Raised IndexError.
Proof.
  split; [reflexivity|].
  assert (Hin : In EmptyString ["width=640"; EmptyString; "height=360"])
    by (right; left; reflexivity).
  split; [exact Hin|].
  exact (resolution_needs_equals_sign sample_check_output sample_py_int
           "blank.mp4" ["width=640"; EmptyString; "height=360"] EmptyString
           eq_refl eq_refl Hin eq_refl).
Defined.

Lemma resolution_of_last_stream_witness :
  mem_char squote "film.mp4" = false
  /\ Forall (fun line => mem_char "=" line = true)
       ["width=640"; "height=360"]
  /\ get_video_resolution sample_check_output sample_py_int "film.mp4"
     = Returned (1920%Z, 1080%Z).
Proof.
  split; [reflexivity|].
  assert (Hall : Forall (fun line => mem_char "=" line = true)
                   ["width=640"; "height=360"])
    by (repeat constructor).
  split; [exact Hall|].
  exact (resolution_of_last_stream sample_check_output sample_py_int
           "film.mp4" ["width=640"; "height=360"] "1920" "1080"
           eq_refl Hall eq_refl).
Defined.

Lemma duration_of_first_mention_witness :
  mem_char squote "duration.mp4" = false
  /\ Forall (fun l => contains "duration" l = false) ["[FORMAT]"]
  /\ contains "duration" "filename=duration.mp4" = true
  /\ count_char "=" "filename=duration.mp4" = 1
  /\ exists k v,
       "filename=duration.mp4" = (k ++ String "=" v)%string
       /\ get_duration sample_check_output sample_int_of_float
            "duration.mp4"
          = sample_int_of_float v.
Proof.
  split; [reflexivity|].
  assert (Hpre : Forall (fun l => contains "duration" l = false)
                   ["[FORMAT]"])
    by (repeat constructor).
  split; [exact Hpre|]. split; [reflexivity|]. split; [reflexivity|].
  exact (proj1 (duration_of_first_mention sample_check_output
                  sample_int_of_float "duration.mp4" ["[FORMAT]"]
                  ["duration=12.5"; "[/FORMAT]"] "filename=duration.mp4"
                  eq_refl Hpre eq_refl eq_refl) eq_refl).
Defined.

(** ** truncate_to_len *)

Lemma truncate_to_len_eq : forall (s : list Z) (target_len : Z),
  truncate_to_len s target_len
  = firstn (Z.to_nat (Z.max 1 (target_len
                                - count_emoji (slice_to target_len s) - 1)))
      s.
Proof.
  intros s target_len. unfold truncate_to_len. cbv zeta.
  unfold slice_to at 1.
  destruct (Z.leb_spec 0
              (Z.max 1 (target_len - count_emoji (slice_to target_len s)
                        - 1))); [reflexivity|lia].
Qed.

Lemma filter_length_le : forall (A : Type) (f : A -> bool) (l : list A),
  (length (filter f l) <= length l)%nat.
Proof.
  induction l as [|a l IH]; cbn; [lia|]. destruct (f a); cbn; lia.
Qed.

Lemma filter_firstn_mono : forall (A : Type) (f : A -> bool) (l : list A)
    (k m : nat),
  (k <= m)%nat ->
  (length (filter f (firstn k l)) <= length (filter f (firstn m l)))%nat.
Proof.
  induction l as [|a l IH]; intros k m Hkm.
  - rewrite !firstn_nil. lia.
  - destruct k as [|k]; [cbn; lia|].
    destruct m as [|m]; [lia|].
    cbn [firstn filter]. specialize (IH k m ltac:(lia)).
    destruct (f a); cbn [length]; lia.
Qed.

(** X7: [truncate_to_len] returns a prefix of the text of at most
    [max(1, target_len - 1)] characters, and never the empty text for a
    text that is not empty, even for a target of zero or less. *)
Theorem truncate_to_len_prefix : forall (s : list Z) (target_len : Z),
  (exists rest, s = truncate_to_len s target_len ++ rest)%list
  /\ (Z.of_nat (length (truncate_to_len s target_len))
      <= Z.max 1 (target_len - 1))%Z
  /\ (s <> [] -> truncate_to_len s target_len <> []).
Proof.
  intros s target_len. rewrite truncate_to_len_eq.
  set (e := count_emoji (slice_to target_len s)).
  assert (He : (0 <= e)%Z) by (unfold e, count_emoji; lia).
  set (k := Z.to_nat (Z.max 1 (target_len - e - 1))).
  split; [|split].
  - exists (skipn k s). symmetry. apply firstn_skipn.
  - pose proof (firstn_le_length k s). lia.
  - intros Hs. destruct s as [|c s]; [congruence|].
    assert (Hk : exists k', k = S k') by (exists (pred k); lia).
    destruct Hk as [k' ->]. discriminate.
Qed.

Lemma truncate_to_len_prefix_witness :
  [128512%Z; 104%Z; 105%Z] <> []
  /\ truncate_to_len [128512%Z; 104%Z; 105%Z] 0 <> [].
Proof.
  assert (Hs : [128512%Z; 104%Z; 105%Z] <> []) by discriminate.
  split; [exact Hs|].
  exact (proj2 (proj2 (truncate_to_len_prefix
                         [128512%Z; 104%Z; 105%Z] 0)) Hs).
Defined.

(** X8: counting two columns for an emoji and one for another character,
    what [truncate_to_len] returns takes at most [target_len - 1] columns,
    or is one character. *)
Theorem truncate_to_len_columns : forall (s : list Z) (target_len : Z),
  (columns (truncate_to_len s target_len) <= Z.max 2 (target_len - 1))%Z
  /\ ((columns (truncate_to_len s target_len) <= target_len - 1)%Z
      \/ (length (truncate_to_len s target_len) <= 1)%nat).
Proof.
  intros s target_len. rewrite truncate_to_len_eq.
  set (e := count_emoji (slice_to target_len s)).
  assert (He : (0 <= e)%Z) by (unfold e, count_emoji; lia).
  unfold columns, count_emoji.
  destruct (Z.le_gt_cases (target_len - e - 1) 1) as [Hsmall|Hbig].
  - replace (Z.max 1 (target_len - e - 1)) with 1%Z by lia.
    pose proof (firstn_le_length (Z.to_nat 1) s) as Hl.
    pose proof (filter_length_le Z emoji (firstn (Z.to_nat 1) s)) as Hf.
    split; [lia|right; lia].
  - replace (Z.max 1 (target_len - e - 1)) with (target_len - e - 1)%Z
      by lia.
    pose proof (firstn_le_length (Z.to_nat (target_len - e - 1)) s) as Hl.
    assert (Hf : (Z.of_nat (length (filter emoji
                    (firstn (Z.to_nat (target_len - e - 1)) s))) <= e)%Z).
    { unfold e, count_emoji, slice_to.
      destruct (Z.leb_spec 0 target_len); [|lia].
      apply inj_le, filter_firstn_mono. lia. }
    split; [lia|left; lia].
Qed.

(** X9: a text that takes at most [target_len - 1] columns is returned
    whole. *)
Theorem truncate_to_len_fits : forall (s : list Z) (target_len : Z),
  (columns s <= target_len - 1)%Z ->
  truncate_to_len s target_len = s.
Proof.
  intros s target_len Hfit. rewrite truncate_to_len_eq.
  unfold columns, count_emoji in Hfit.
  assert (Hall : slice_to target_len s = s).
  { unfold slice_to. destruct (Z.leb_spec 0 target_len).
    - apply firstn_all2. lia.
    - lia. }
  rewrite Hall. apply firstn_all2. unfold count_emoji. lia.
Qed.

Lemma truncate_to_len_fits_witness :
  (columns [104%Z; 105%Z; 128512%Z] <= 5 - 1)%Z
  /\ truncate_to_len [104%Z; 105%Z; 128512%Z] 5 = [104%Z; 105%Z; 128512%Z].
Proof.
  assert (Hfit : (columns [104%Z; 105%Z; 128512%Z] <= 5 - 1)%Z)
    by (vm_compute; discriminate).
  split; [exact Hfit|].
  exact (truncate_to_len_fits [104%Z; 105%Z; 128512%Z] 5 Hfit).
Defined.

(** ** More on the suspend scope *)

Lemma resumed_is_active : forall w, is_active (resumed w) = true.
Proof.
  intros w. unfold is_active, resumed, rebind, bound, bound_eqb. cbn.
  rewrite !Nat.eqb_refl. reflexivity.
Qed.

(** X10: every scope ends in the active state of the UI with the terminal
    taken back, whatever state it was entered in and whatever its body did
    to the terminal or to the panes, and whether the body returned or
    raised. *)
Theorem scope_ends_active : forall (body : M unit) (w : World),
  is_active (snd (suspend.with_suspend body w)) = true
  /\ isendwin (term (snd (suspend.with_suspend body w))) = false.
Proof.
  intros body w. rewrite with_suspend_run. cbn [snd].
  split; [apply resumed_is_active|reflexivity].
Qed.

(** X11: scopes do not nest.  When a scope is opened inside the body of
    another and its own body returns, what follows it in the outer body
    runs in the active state of the UI with the terminal taken back, not
    in the suspended state the outer scope had set. *)
Theorem inner_scope_ends_suspension : forall (inner rest : M unit)
    (w : World),
  let resumed_inside :=
    resumed (snd (inner (suspended (suspended w)))) in
  fst (inner (suspended (suspended w))) = Returned tt ->
  suspend.with_suspend (suspend.with_suspend inner ;; rest) w
  = (fst (rest resumed_inside), resumed (snd (rest resumed_inside)))
  /\ is_active resumed_inside = true
  /\ isendwin (term resumed_inside) = false.
Proof.
  intros inner rest w resumed_inside Hret.
  split; [|split; [apply resumed_is_active|reflexivity]].
  rewrite with_suspend_run. unfold bind.
  rewrite with_suspend_run, Hret. reflexivity.
Qed.

Lemma inner_scope_ends_suspension_witness :
  fst (suspend.call sample_env "true" (suspended (suspended ui_world)))
  = Returned tt
  /\ is_active
       (resumed (snd (suspend.call sample_env "true"
                        (suspended (suspended ui_world))))) = true.
Proof.
  split; [reflexivity|].
  exact (proj1 (proj2 (inner_scope_ends_suspension
                         (suspend.call sample_env "true") (ret tt) ui_world
                         eq_refl))).
Defined.

Lemma filter_popen_system : forall tests : list string,
  filter is_popen (map EvSystem tests) = [].
Proof. induction tests as [|t tests IH]; [reflexivity|exact IH]. Qed.

Lemma get_file_handler_launches : forall env file_path default w,
  filter is_popen (trace (snd (get_file_handler env file_path default w)))
  = filter is_popen (trace w).
Proof.
  intros env file_path default w. unfold get_file_handler.
  destruct (guess_type env file_path) as [mtype enc].
  destruct (truthy mtype); cbn [negb]; [|reflexivity].
  destruct (findmatch env _ file_path) as [tests [handler entry]].
  unfold bind. rewrite for_each_emit_run.
  assert (Hsame : filter is_popen (trace w ++ map EvSystem tests)
                  = filter is_popen (trace w)).
  { rewrite filter_app, filter_popen_system, app_nil_r. reflexivity. }
  destruct (truthy handler); cbn [negb]; [exact Hsame|].
  destruct (DEFAULT_OPEN env) as [template|]; [|exact Hsame].
  unfold lift, ret.
  destruct (str_format env template (shlex_quote file_path)); exact Hsame.
Qed.

(** X12: [open_file] starts through [subprocess] the command that the
    resolver returns, once and without standard input, when it is a string
    that is not empty; it starts nothing when the resolver returns the
    empty string or absent, and returns; and it starts nothing when the
    resolver raises, and raises the same error.  An error of the launch
    reaches the caller. *)
Theorem open_file_launches : forall (env : Env) (file_path : string)
    (w : World),
  let resolved := fst (get_file_handler env file_path None w) in
  filter is_popen (trace (snd (suspend.open_file env file_path w)))
  = (filter is_popen (trace w)
     ++ match resolved with
        | Returned (Some (String c cmd)) => [EvPopen (String c cmd) None]
        | _ => []
        end)%list
  /\ fst (suspend.open_file env file_path w)
     = match resolved with
       | Raised e => Raised e
       | Returned (Some (String c cmd)) =>
           match run_shell env (String c cmd) None with
           | Returned _ => Returned tt
           | Raised e => Raised e
           end
       | Returned _ => Returned tt
       end.
Proof.
  intros env file_path w. cbv zeta.
  pose proof (get_file_handler_launches env file_path None w) as Hsame.
  unfold suspend.open_file, bind.
  destruct (get_file_handler env file_path None w)
    as [[[[|c cmd]|]|e] w1]; cbn [fst snd truthy negb] in *.
  - unfold ret. cbn [fst snd]. rewrite Hsame, app_nil_r.
    split; reflexivity.
  - unfold suspend.call, bind, emit, lift, ret.
    destruct (run_shell env (String c cmd) None); cbn [fst snd trace];
      rewrite filter_app, Hsame; split; reflexivity.
  - unfold ret. cbn [fst snd]. rewrite Hsame, app_nil_r.
    split; reflexivity.
  - rewrite Hsame, app_nil_r. split; reflexivity.
Qed.

(** ** set_shorter_esc_delay *)

(** X13: [set_shorter_esc_delay] leaves [ESCDELAY] set, to the value it had
    when there was one and to the decimal writing of the delay otherwise;
    it changes no other variable; and a second call, with any delay,
    changes nothing. *)
Theorem esc_delay_set_once : forall (delay delay' : Z) (environ : dict),
  let after := set_shorter_esc_delay delay environ in
  dict_get "ESCDELAY" after
  = Some (match dict_get "ESCDELAY" environ with
          | Some v => v
          | None => str_of_int delay
          end)
  /\ (forall k, String.eqb k "ESCDELAY" = false ->
                dict_get k after = dict_get k environ)
  /\ set_shorter_esc_delay delay' after = after.
Proof.
  intros delay delay' environ after.
  assert (Hget : dict_get "ESCDELAY" after
                 = Some (match dict_get "ESCDELAY" environ with
                         | Some v => v
                         | None => str_of_int delay
                         end)).
  { subst after. unfold set_shorter_esc_delay, setdefault.
    destruct (dict_get "ESCDELAY" environ) as [v|] eqn:Hv.
    - exact Hv.
    - apply dict_get_set_same. }
  split; [exact Hget|]. split.
  - intros k Hk. subst after. unfold set_shorter_esc_delay, setdefault.
    destruct (dict_get "ESCDELAY" environ); [reflexivity|].
    apply dict_get_set_other. exact Hk.
  - unfold set_shorter_esc_delay at 1. unfold setdefault.
    rewrite Hget. reflexivity.
Qed.

Lemma esc_delay_set_once_witness :
  String.eqb "TERM" "ESCDELAY" = false
  /\ dict_get "TERM" (set_shorter_esc_delay 25 [("TERM", "xterm")])
     = Some "xterm"
  /\ dict_get "ESCDELAY" (set_shorter_esc_delay 25 [("TERM", "xterm")])
     = Some "25"
  /\ dict_get "ESCDELAY" (set_shorter_esc_delay 25 [("ESCDELAY", "1000")])
     = Some "1000".
Proof.
  split; [reflexivity|].
  split; [exact (proj1 (proj2 (esc_delay_set_once 25 25
                                 [("TERM", "xterm")])) "TERM" eq_refl)|].
  split; [exact (proj1 (esc_delay_set_once 25 25 [("TERM", "xterm")]))|].
  exact (proj1 (esc_delay_set_once 25 25 [("ESCDELAY", "1000")])).
Defined.

(** ** humanize_duration *)

(** X14: from one hour on, [humanize_duration] writes the hour of the day
    and drops the days: a duration and the same duration with 24 hours
    more are written alike. *)
Theorem humanize_duration_drops_days : forall seconds : Z,
  (3600 <= seconds)%Z ->
  (seconds + 86400 <= 253402300799)%Z ->
  humanize_duration (seconds + 86400) = humanize_duration seconds.
Proof.
  intros seconds Hlo Hhi. unfold humanize_duration.
  replace (seconds + 86400 <? -62135596800)%Z with false by lia.
  replace (253402300799 <? seconds + 86400)%Z with false by lia.
  replace (seconds <? -62135596800)%Z with false by lia.
  replace (253402300799 <? seconds)%Z with false by lia.
  replace (3600 <=? seconds + 86400)%Z with true by lia.
  replace (3600 <=? seconds)%Z with true by lia.
  cbn [orb]. cbv zeta.
  assert (Hh : (((seconds + 86400) / 3600) mod 24
                = (seconds / 3600) mod 24)%Z).
  { replace (seconds + 86400)%Z with (seconds + 24 * 3600)%Z by lia.
    rewrite Z.div_add by lia.
    replace (seconds / 3600 + 24)%Z with (seconds / 3600 + 1 * 24)%Z by lia.
    apply Z_mod_plus_full. }
  assert (Hm : (((seconds + 86400) / 60) mod 60
                = (seconds / 60) mod 60)%Z).
  { replace (seconds + 86400)%Z with (seconds + 1440 * 60)%Z by lia.
    rewrite Z.div_add by lia.
    replace (seconds / 60 + 1440)%Z with (seconds / 60 + 24 * 60)%Z by lia.
    apply Z_mod_plus_full. }
  assert (Hs : ((seconds + 86400) mod 60 = seconds mod 60)%Z).
  { replace (seconds + 86400)%Z with (seconds + 1440 * 60)%Z by lia.
    apply Z_mod_plus_full. }
  rewrite Hh, Hm, Hs. reflexivity.
Qed.

Lemma humanize_duration_drops_days_witness :
  (3600 <= 3661)%Z
  /\ (3661 + 86400 <= 253402300799)%Z
  /\ humanize_duration 90061 = Some "1:01:01"
  /\ humanize_duration (3661 + 86400) = humanize_duration 3661.
Proof.
  assert (Hlo : (3600 <= 3661)%Z) by (vm_compute; discriminate).
  assert (Hhi : (3661 + 86400 <= 253402300799)%Z)
    by (vm_compute; discriminate).
  split; [exact Hlo|]. split; [exact Hhi|]. split; [reflexivity|].
  exact (humanize_duration_drops_days 3661 Hlo Hhi).
Defined.

Example humanize_duration_below_one_hour :
  humanize_duration 0 = Some "0:00"
  /\ humanize_duration 65 = Some "1:05"
  /\ humanize_duration 3599 = Some "59:59"
  /\ humanize_duration 3600 = Some "1:00:00".
Proof. repeat split. Qed.

(** ** parse_size *)

Lemma index_from_end_two : forall (number : list Z) (a b : Z),
  index_from_end 2 (number ++ [a; b]) = Some a.
Proof.
  intros number a b. unfold index_from_end. rewrite length_app. cbn [length].
  destruct (Nat.ltb_spec (length number + 2) 2) as [H|H]; [lia|].
  replace (length number + 2 - 2)%nat with (length number + 0)%nat by lia.
  rewrite nth_error_app2 by lia.
  replace (length number + 0 - length number)%nat with 0%nat by lia.
  reflexivity.
Qed.

Lemma slice_two_from_end : forall (number : list Z) (a b : Z),
  slice_to (-2) (number ++ [a; b]) = number
  /\ slice_from (-2) (number ++ [a; b]) = [a; b].
Proof.
  intros number a b. unfold slice_to, slice_from. cbn [Z.leb Z.compare].
  rewrite length_app. cbn [length].
  replace (length number + 2 - Z.to_nat (- -2))%nat with (length number)
    by lia.
  split.
  - rewrite firstn_app, Nat.sub_diag, firstn_all, app_nil_r. reflexivity.
  - rewrite skipn_app, Nat.sub_diag, skipn_all, app_nil_l. reflexivity.
Qed.

Lemma slice_one_from_end : forall (number : list Z) (b : Z),
  slice_to (-1) (number ++ [b]) = number
  /\ slice_from (-1) (number ++ [b]) = [b].
Proof.
  intros number b. unfold slice_to, slice_from. cbn [Z.leb Z.compare].
  rewrite length_app. cbn [length].
  replace (length number + 1 - Z.to_nat (- -1))%nat with (length number)
    by lia.
  split.
  - rewrite firstn_app, Nat.sub_diag, firstn_all, app_nil_r. reflexivity.
  - rewrite skipn_app, Nat.sub_diag, skipn_all, app_nil_l. reflexivity.
Qed.

(** X15: [parse_size] raises [IndexError] on a size of fewer than two
    characters, a lone digit or a lone unit letter for one; and when the
    last two characters are a letter and another character that make no
    key of [units], a unit in lower case for one, it raises [KeyError] once
    the number before them is read. *)
Theorem parse_size_errors : forall (float : Type)
    (py_float : list Z -> result float)
    (int_of_product : float -> Z -> result Z)
    (isalpha_beyond_ascii : Z -> bool),
  (forall size,
      (length size < 2)%nat ->
      parse_size float py_float int_of_product isalpha_beyond_ascii size
      = Raised IndexError)
  /\ (forall number a b x,
      isalpha isalpha_beyond_ascii a = true ->
      units_get [a; b] units = None ->
      py_float number = Returned x ->
      parse_size float py_float int_of_product isalpha_beyond_ascii
        (number ++ [a; b])
      = Raised KeyError).
Proof.
  intros float py_float int_of_product isalpha_beyond_ascii. split.
  - intros size Hlen. unfold parse_size, index_from_end.
    destruct (Nat.ltb_spec (length size) 2); [reflexivity|lia].
  - intros number a b x Ha Hunit Hx. unfold parse_size.
    rewrite index_from_end_two, Ha.
    destruct (slice_two_from_end number a b) as [-> ->].
    rewrite Hx, Hunit. reflexivity.
Qed.

(** X16: the units are powers of 1000.  A number followed by [KB], [MB],
    [GB] or [TB] is the number read as a float, times 1000, 1000000,
    1000000000 or 1000000000000, cut to an integer; a number that ends with
    a character that is no letter, followed by [B], is the number itself
    cut to an integer. *)
Theorem parse_size_units : forall (float : Type)
    (py_float : list Z -> result float)
    (int_of_product : float -> Z -> result Z)
    (isalpha_beyond_ascii : Z -> bool) (number : list Z),
  let scaled (n : list Z) (k : Z) :=
    match py_float n with
    | Raised e => Raised e
    | Returned x => int_of_product x k
    end in
  let parse := parse_size float py_float int_of_product
                 isalpha_beyond_ascii in
  parse (number ++ text_of "KB")%list = scaled number 1000%Z
  /\ parse (number ++ text_of "MB")%list = scaled number 1000000%Z
  /\ parse (number ++ text_of "GB")%list = scaled number 1000000000%Z
  /\ parse (number ++ text_of "TB")%list = scaled number 1000000000000%Z
  /\ (forall c,
      isalpha isalpha_beyond_ascii c = false ->
      parse ((number ++ [c]) ++ text_of "B")%list
      = scaled (number ++ [c])%list 1%Z).
Proof.
  intros float py_float int_of_product isalpha_beyond_ascii number
    scaled parse.
  assert (Htwo : forall a b k,
    isalpha isalpha_beyond_ascii a = true ->
    units_get [a; b] units = Some k ->
    parse (number ++ [a; b])%list = scaled number k).
  { intros a b k Ha Hk. subst parse scaled. unfold parse_size.
    rewrite index_from_end_two, Ha.
    destruct (slice_two_from_end number a b) as [-> ->].
    rewrite Hk. reflexivity. }
  repeat split; try (apply Htwo; reflexivity).
  intros c Hc. subst parse scaled. unfold parse_size.
  rewrite <- app_assoc. cbn [app text_of list_ascii_of_string map].
  rewrite index_from_end_two, Hc.
  replace (number ++ [c; Z.of_nat (nat_of_ascii "B")])%list
    with ((number ++ [c]) ++ [Z.of_nat (nat_of_ascii "B")])%list
    by (rewrite <- app_assoc; reflexivity).
  destruct (slice_one_from_end (number ++ [c])%list
              (Z.of_nat (nat_of_ascii "B"))) as [-> ->].
  reflexivity.
Qed.

Lemma parse_size_errors_witness :
  (length (text_of "5") < 2)%nat
  /\ sample_parse_size "5" = Raised IndexError
  /\ sample_parse_size "B" = Raised IndexError
  /\ sample_parse_size "5kb" = Raised KeyError.
Proof.
  pose (H := parse_size_errors Z sample_py_float sample_int_of_product
               (fun _ => false)).
  assert (Hlen : (length (text_of "5") < 2)%nat) by (cbn; lia).
  split; [exact Hlen|].
  split; [exact (proj1 H (text_of "5") Hlen)|].
  split; [apply (proj1 H (text_of "B")); cbn; lia|].
  exact (proj2 H (text_of "5") 107%Z 98%Z 5%Z eq_refl eq_refl eq_refl).
Defined.

Lemma parse_size_units_witness :
  isalpha (fun _ => false) 50%Z = false
  /\ sample_parse_size "32MB" = Returned 32000000%Z
  /\ sample_parse_size "512B" = Returned 512%Z.
Proof.
  split; [reflexivity|].
  split.
  - exact (proj1 (proj2 (parse_size_units Z sample_py_float
                           sample_int_of_product (fun _ => false)
                           (text_of "32")))).
  - exact (proj2 (proj2 (proj2 (proj2 (parse_size_units Z sample_py_float
                                         sample_int_of_product
                                         (fun _ => false) (text_of "51")))))
             50%Z eq_refl).
Defined.

(** ** The fallback command, word by word *)

Lemma lex_shlex_quote : forall (s : string) (out : list string),
  lex LexSpace false EmptyString out (shlex_quote s)
  = Returned (out ++ [s])%list.
Proof.
  intros [|c s] out; [reflexivity|].
  unfold shlex_quote.
  destruct (find_unsafe (String c s)) eqn:Hsafe.
  - cbn [lex lex_whitespace lex_escape lex_quote].
    change (lex_whitespace squote) with false.
    change (lex_escape squote) with false.
    change (lex_quote squote) with true. cbn iota.
    rewrite lex_quoted_body. reflexivity.
  - cbn in Hsafe. apply orb_false_iff in Hsafe. destruct Hsafe as [Hc Hs].
    apply negb_false_iff in Hc.
    destruct (safe_char_plain c Hc) as [Hw [Hq He]].
    cbn [lex]. rewrite Hw, Hq, He.
    rewrite lex_word_safe by (assumption || reflexivity). reflexivity.
Qed.

Lemma lex_safe_word_then : forall (prog rest : string) (out : list string),
  prog <> EmptyString ->
  find_unsafe prog = false ->
  lex LexSpace false EmptyString out (prog ++ String " " rest)
  = lex LexSpace false EmptyString (out ++ [prog])%list rest.
Proof.
  intros prog rest out Hne Hsafe.
  destruct prog as [|c prog]; [congruence|].
  cbn in Hsafe. apply orb_false_iff in Hsafe. destruct Hsafe as [Hc Hs].
  apply negb_false_iff in Hc.
  destruct (safe_char_plain c Hc) as [Hw [Hq He]].
  cbn [append lex]. rewrite Hw, Hq, He.
  assert (Hword : forall (p token : string),
             find_unsafe p = false ->
             nonempty token = true ->
             lex LexWord false token out (p ++ String " " rest)
             = lex LexSpace false EmptyString
                 (out ++ [(token ++ p)%string])%list rest).
  { induction p as [|d p IH]; intros token Hp Htok.
    - cbn [append lex]. change (lex_whitespace " ") with true.
      cbv iota. rewrite Htok, append_empty_r. reflexivity.
    - cbn in Hp. apply orb_false_iff in Hp. destruct Hp as [Hd Hp].
      apply negb_false_iff in Hd.
      destruct (safe_char_plain d Hd) as [Hw' [Hq' He']].
      cbn [append lex]. rewrite Hw', Hq', He'.
      rewrite IH by (assumption || apply nonempty_snoc).
      rewrite append_snoc. reflexivity. }
  rewrite Hword by (assumption || reflexivity). reflexivity.
Qed.

(** X17: when the resolver falls back on a template made of a program name
    and the placeholder, and [format] puts the quoted path in its place,
    the command it returns reads back, word by word, as the program and the
    path: the path is one argument, whatever characters it holds. *)
Theorem fallback_command_words : forall (env : Env) (file_path prog : string)
    (default : option string) (w : World),
  prog <> EmptyString ->
  find_unsafe prog = false ->
  DEFAULT_OPEN env = Some (prog ++ " {file_path}") ->
  str_format env (prog ++ " {file_path}") (shlex_quote file_path)
  = Returned (prog ++ " " ++ shlex_quote file_path) ->
  truthy (media_type env file_path) = true ->
  truthy (registry_handler env file_path) = false ->
  exists cmd,
    fst (get_file_handler env file_path default w) = Returned (Some cmd)
    /\ shlex_split cmd = Returned [prog; file_path].
Proof.
  intros env file_path prog default w Hne Hsafe Htemplate Hformat Hm Hh.
  exists (prog ++ " " ++ shlex_quote file_path). split.
  - rewrite (get_file_handler_fallback env file_path default w Hm Hh).
    unfold default_opener. rewrite Htemplate, Hformat. reflexivity.
  - unfold shlex_split. cbn [append].
    rewrite lex_safe_word_then by assumption.
    apply lex_shlex_quote.
Qed.

Lemma fallback_command_words_witness :
  "less" <> EmptyString
  /\ find_unsafe "less" = false
  /\ truthy (media_type sample_env "it's mine.txt") = true
  /\ truthy (registry_handler sample_env "it's mine.txt") = false
  /\ exists cmd,
       fst (get_file_handler sample_env "it's mine.txt" None ui_world)
       = Returned (Some cmd)
       /\ shlex_split cmd = Returned ["less"; "it's mine.txt"].
Proof.
  assert (Hne : "less" <> EmptyString) by discriminate.
  split; [exact Hne|]. do 3 (split; [reflexivity|]).
  exact (fallback_command_words sample_env "it's mine.txt" "less" None
           ui_world Hne eq_refl eq_refl eq_refl eq_refl eq_refl).
Defined.

(** ** get_waveform *)

Lemma list_ind3 : forall (A : Type) (P : list A -> Prop),
  P [] ->
  (forall a, P [a]) ->
  (forall a b, P [a; b]) ->
  (forall a b c l, P l -> P (a :: b :: c :: l)) ->
  forall l, P l.
Proof.
  intros A P H0 H1 H2 H3.
  assert (Hall : forall l, P l /\ (forall a, P (a :: l))
                           /\ (forall a b, P (a :: b :: l))).
  { induction l as [|x l [IH0 [IH1 IH2]]].
    - repeat split; auto.
    - repeat split; auto. }
  intros l. apply Hall.
Qed.

Lemma b64encode_length : forall bytes : list Z,
  String.length (b64encode bytes) = (4 * ((length bytes + 2) / 3))%nat.
Proof.
  induction bytes as [|a|a b|a b c l IH] using list_ind3;
    try reflexivity.
  cbn [b64encode String.length length]. rewrite IH.
  replace (S (S (S (length l))) + 2)%nat with (length l + 2 + 1 * 3)%nat
    by lia.
  rewrite Nat.div_add by lia. lia.
Qed.

Lemma b64encode_padding : forall bytes : list Z,
  (length bytes mod 3 = 1)%nat ->
  exists body, b64encode bytes = (body ++ "==")%string.
Proof.
  induction bytes as [|a|a b|a b c l IH] using list_ind3; intros Hlen.
  - discriminate Hlen.
  - exists (String (b64_char (a / 4))
              (String (b64_char (a mod 4 * 16)) EmptyString)).
    reflexivity.
  - discriminate Hlen.
  - assert (Hl : (length l mod 3 = 1)%nat).
    { cbn [length] in Hlen.
      replace (S (S (S (length l)))) with (length l + 1 * 3)%nat in Hlen
        by lia.
      rewrite Nat.Div0.mod_add in Hlen. exact Hlen. }
    destruct (IH Hl) as [body Hbody].
    exists (String (b64_char (a / 4))
              (String (b64_char (a mod 4 * 16 + b / 16))
                 (String (b64_char (b mod 16 * 4 + c / 64))
                    (String (b64_char (c mod 64)) body)))).
    cbn [b64encode append]. rewrite Hbody. reflexivity.
Qed.

(** X18: whatever hundred values are drawn and whatever the path,
    [get_waveform] returns 136 characters, the last two of them equals
    signs. *)
Theorem get_waveform_shape : forall (draws : list Z) (file_path : string),
  length draws = 100%nat ->
  String.length (get_waveform draws file_path) = 136%nat
  /\ exists body, get_waveform draws file_path = (body ++ "==")%string.
Proof.
  intros draws file_path Hlen. unfold get_waveform. split.
  - rewrite b64encode_length, Hlen. reflexivity.
  - apply b64encode_padding. rewrite Hlen. reflexivity.
Qed.

Lemma get_waveform_shape_witness :
  length (repeat 255%Z 100) = 100%nat
  /\ String.length (get_waveform (repeat 255%Z 100) "voice.ogg") = 136%nat.
Proof.
  split; [reflexivity|].
  exact (proj1 (get_waveform_shape (repeat 255%Z 100) "voice.ogg" eq_refl)).
Defined.

Example b64encode_samples :
  b64encode [77%Z; 97%Z; 110%Z] = "TWFu"
  /\ b64encode [77%Z; 97%Z] = "TWE="
  /\ b64encode [77%Z] = "TQ=="
  /\ b64encode [255%Z; 255%Z; 255%Z] = "////".
Proof. repeat split. Qed.
